(** * Plant store backend: purchase transaction and access policy

    Shallow embedding of [plant_store/products] (models.py, serializers.py,
    views.py).  The three Django tables are finite maps from primary key to
    row; a request handler is a function from the database to an outcome and
    a database, so that what an exception leaves behind is visible (the
    views run without [transaction.atomic]).

    Conventions:
    - [DecimalField(decimal_places=2)] values are integers counting
      hundredths (a price of 12.50 is [1250]); a body writes them with at
      most two decimal places;
    - Python integers are [Z]; primary keys are [nat]; text is UTF-8;
    - timestamps ([created_at], [updated_at], [last_login], [date_joined]),
      the password hash and the [ordering] of query sets are left out: no
      result below depends on them. *)

From stdpp Require Import base numbers strings gmap fin_maps pretty.

Local Open Scope Z_scope.

(** * The data *)

(** ** models.py *)

Record User := {
  username : string;
  email : string;
  first_name : string;
  last_name : string;
  is_seller : bool;
  is_active : bool;
  phone_number : string;
  address : string
}.

Definition CATEGORY_CHOICES : list string :=
  ["Plants"; "Seeds"; "Gardening Tools"; "Pots & Planters"]%string.

Record Product := {
  name : string;
  description : string;
  price : Z;
  category : string;
  image : string;
  stock : Z;
  seller : nat
}.

Definition STATUS_CHOICES : list string :=
  ["Pending"; "Processing"; "Shipped"; "Delivered"; "Cancelled"]%string.

Record SoldProduct := {
  product : nat;
  buyer : nat;
  quantity : Z;
  total_price : Z;
  status : string;
  shipping_address : string
}.

(** [Product.stock] and [SoldProduct.quantity] are [PositiveIntegerField]s.
    Django validates such a field against the range its database backend
    reports for it.  The range starts at 0, zero included; where it ends
    depends on the backend, which the application does not fix: the upper
    end is a variable of the development (see [Section Backend]). *)
Definition PositiveIntegerField_min : Z := 0.

(** [DecimalField(max_digits=10, decimal_places=2)], in hundredths. *)
Definition DecimalField_fits (hundredths : Z) : Prop :=
  Z.abs hundredths < 10 ^ 10.

Definition SoldProduct_quantity_default : Z := 1.
Definition SoldProduct_status_default : string := "Pending".
Definition Product_stock_default : Z := 0.

(** The tables, and for each table the primary keys of the rows that were
    deleted from it: the database hands no primary key out twice. *)
Record Database := {
  User_objects : gmap nat User;
  Product_objects : gmap nat Product;
  SoldProduct_objects : gmap nat SoldProduct;
  User_retired : gset nat;
  Product_retired : gset nat;
  SoldProduct_retired : gset nat
}.

Definition with_products (db : Database) (ps : gmap nat Product) : Database :=
  {| User_objects := User_objects db;
     Product_objects := ps;
     SoldProduct_objects := SoldProduct_objects db;
     User_retired := User_retired db;
     Product_retired := Product_retired db;
     SoldProduct_retired := SoldProduct_retired db |}.

Definition with_sold_products (db : Database) (ss : gmap nat SoldProduct)
  : Database :=
  {| User_objects := User_objects db;
     Product_objects := Product_objects db;
     SoldProduct_objects := ss;
     User_retired := User_retired db;
     Product_retired := Product_retired db;
     SoldProduct_retired := SoldProduct_retired db |}.

Definition with_users (db : Database) (us : gmap nat User) : Database :=
  {| User_objects := us;
     Product_objects := Product_objects db;
     SoldProduct_objects := SoldProduct_objects db;
     User_retired := User_retired db;
     Product_retired := Product_retired db;
     SoldProduct_retired := SoldProduct_retired db |}.

(** The primary key of a new row: one the table does not hold and never
    held. *)
Definition unused_pk {A} (table : gmap nat A) (retired : gset nat) : nat :=
  fresh (dom table ∪ retired).

Definition set_stock (p : Product) (n : Z) : Product :=
  {| name := name p; description := description p; price := price p;
     category := category p; image := image p; stock := n;
     seller := seller p |}.

(** ** Requests and their outcomes *)

(** [request.user]: Django's [AnonymousUser], or a row of the user table
    together with its primary key. *)
Inductive RequestUser :=
| AnonymousUser
| AuthenticatedUser (pk : nat) (u : User).

Definition is_authenticated (user : RequestUser) : bool :=
  match user with AnonymousUser => false | AuthenticatedUser _ _ => true end.

(** [request.user.is_seller].  [AnonymousUser] has no such attribute; every
    use in views.py is guarded by an authentication test evaluated first. *)
Definition user_is_seller (user : RequestUser) : bool :=
  match user with AnonymousUser => false | AuthenticatedUser _ u => is_seller u end.

(** One entry of a [ValidationError].  The errors the framework raises on
    its own are told apart by their error code; the error the views raise
    is its text. *)
Inductive ErrorDetail :=
| Code (code : string)
| Message (text : string).

Inductive Exception :=
| ValidationError (detail : list (string * ErrorDetail))
| NotAuthenticated
| PermissionDenied
| Http404
| KeyError (key : string)
| ValueError.

Inductive Result (A : Type) :=
| Ok (a : A)
| Raise (e : Exception).
Arguments Ok {A} a.
Arguments Raise {A} e.

(** A handler threads the database and may stop with an exception; the
    database it leaves is the one at the point of the [raise]. *)
Definition Handler (A : Type) : Type := Database → Result A * Database.

Definition handler_ret {A} (a : A) : Handler A := λ db, (Ok a, db).

Definition handler_bind {A B} (m : Handler A) (f : A → Handler B)
  : Handler B :=
  λ db, match m db with
        | (Ok a, db') => f a db'
        | (Raise e, db') => (Raise e, db')
        end.

Definition raise {A} (e : Exception) : Handler A := λ db, (Raise e, db).
Definition get_db : Handler Database := λ db, (Ok db, db).
Definition put_db (db' : Database) : Handler unit := λ _, (Ok tt, db').
Definition lift_result {A} (r : Result A) : Handler A := λ db, (r, db).

(** [try: m except Exception as e: h(e)]; what [m] wrote before raising
    stays written. *)
Definition try_except {A} (m : Handler A) (h : Exception → Handler A)
  : Handler A :=
  λ db, match m db with
        | (Ok a, db') => (Ok a, db')
        | (Raise e, db') => h e db'
        end.

Declare Scope handler_scope.
Delimit Scope handler_scope with handler.
Notation "'do' x <- m ; k" := (handler_bind m (λ x, k))
  (at level 10, x name, m at level 100, k at level 200) : handler_scope.
Notation "'do_' m ; k" := (handler_bind m (λ _, k))
  (at level 10, m at level 100, k at level 200) : handler_scope.
Local Open Scope handler_scope.

Inductive Action := list_ | retrieve | create | update | partial_update | destroy.

Global Instance Action_eq_dec : EqDecision Action.
Proof. solve_decision. Defined.

(** ** Text

    A [string] is a text in UTF-8.  Python's [len] counts the characters of
    a text and [str.strip] removes white space from both of its ends; both
    are spelt out on the encoding. *)

Definition byte (a : Ascii.ascii) : N := Ascii.N_of_ascii a.

(** [len(s)]: the bytes that start a character, that is all but the
    continuation bytes [0x80] to [0xBF]. *)
Fixpoint len (s : string) : nat :=
  match s with
  | EmptyString => 0%nat
  | String a rest =>
      if bool_decide (128 ≤ byte a < 192)%N then len rest else S (len rest)
  end.

(** The characters [str.isspace] holds of, by the length of their encoding:
    U+0009 to U+000D and U+001C to U+0020; U+0085 and U+00A0; U+1680,
    U+2000 to U+200A, U+2028, U+2029, U+202F, U+205F and U+3000. *)
Definition space1 (a : Ascii.ascii) : bool :=
  bool_decide (9 ≤ byte a ≤ 13 ∨ 28 ≤ byte a ≤ 32)%N.

Definition space2 (a b : Ascii.ascii) : bool :=
  bool_decide (byte a = 194 ∧ (byte b = 133 ∨ byte b = 160))%N.

Definition space3 (a b c : Ascii.ascii) : bool :=
  bool_decide
    ((byte a = 225 ∧ byte b = 154 ∧ byte c = 128)
     ∨ (byte a = 226 ∧ byte b = 128
        ∧ (128 ≤ byte c ≤ 138 ∨ byte c = 168 ∨ byte c = 169 ∨ byte c = 175))
     ∨ (byte a = 226 ∧ byte b = 129 ∧ byte c = 159)
     ∨ (byte a = 227 ∧ byte b = 128 ∧ byte c = 128))%N.

(** White space removed from the front of a text; [backwards] is for a
    text read from its end, whose characters have their bytes in reverse. *)
Fixpoint strip_front (backwards : bool) (s : string) : string :=
  match s with
  | String a rest =>
      if space1 a then strip_front backwards rest
      else
        match rest with
        | String b rest2 =>
            if (if backwards then space2 b a else space2 a b)
            then strip_front backwards rest2
            else
              match rest2 with
              | String c rest3 =>
                  if (if backwards then space3 c b a else space3 a b c)
                  then strip_front backwards rest3
                  else s
              | EmptyString => s
              end
        | EmptyString => s
        end
  | EmptyString => s
  end.

(** [s.strip()] *)
Definition strip (s : string) : string :=
  String.rev (strip_front true (String.rev (strip_front false s))).

(** ['\x00' in s] *)
Fixpoint has_null (s : string) : bool :=
  match s with
  | EmptyString => false
  | String a rest => bool_decide (byte a = 0)%N || has_null rest
  end.

Definition nonblank (s : string) : bool :=
  match s with EmptyString => false | _ => true end.

(** Python's truth value of a text that may be missing. *)
Definition truthy (v : option string) : bool :=
  match v with
  | None | Some EmptyString => false
  | Some _ => true
  end.

(** ** Request bodies and responses *)

(** The body of [POST /sold-products/], field by field as the serializer
    declares them; [None] is an absent key.  [buyer] is read-only: a value
    sent for it is dropped. *)
Record SoldProductData := {
  data_product_id : option nat;
  data_buyer : option nat;
  data_quantity : option Z;
  data_total_price : option Z;
  data_status : option string;
  data_shipping_address : option string
}.

(** [serializer.validated_data]; [quantity] and [status] have model defaults,
    so the serializer does not require them and leaves them out when the
    body has none. *)
Record SoldProductValidated := {
  vd_product_pk : nat;
  vd_product : Product;
  vd_quantity : option Z;
  vd_total_price : Z;
  vd_status : option string;
  vd_shipping_address : string
}.

(** The body of [POST /products/] and [PATCH /products/<pk>/]: the writable
    fields of [ProductSerializer]; [seller] is read-only there.
    [data_image] stands for an upload the image field has accepted. *)
Record ProductData := {
  data_name : option string;
  data_description : option string;
  data_price : option Z;
  data_category : option string;
  data_image : option string;
  data_stock : option Z
}.

(** [serializer.validated_data] of a product to create; [stock] has a
    model default and is left out when the body has none. *)
Record ProductValidated := {
  pvd_name : string;
  pvd_description : string;
  pvd_price : Z;
  pvd_category : string;
  pvd_image : string;
  pvd_stock : option Z
}.

(** The body of [PATCH /users/<pk>/]: the writable fields of
    [UserSerializer]. *)
Record UserData := {
  data_username : option string;
  data_email : option string;
  data_first_name : option string;
  data_last_name : option string;
  data_is_seller : option bool;
  data_phone_number : option string;
  data_address : option string
}.

(** The body of [POST /users/register/]: the fields of
    [UserCreateSerializer]. *)
Record UserCreateData := {
  reg_username : option string;
  reg_email : option string;
  reg_first_name : option string;
  reg_last_name : option string;
  reg_password : option string;
  reg_is_seller : option bool;
  reg_phone_number : option string;
  reg_address : option string
}.

(** The body of [POST /users/login/]. *)
Record LoginData := {
  login_username : option string;
  login_password : option string
}.

(** Responses built by the views themselves. *)
Inductive Payload (A : Type) :=
| Data (a : A)
| Error (error : string)
| Errors (errors : list (string * ErrorDetail))
| Empty.
Arguments Data {A} a.
Arguments Error {A} error.
Arguments Errors {A} errors.
Arguments Empty {A}.

Record Response (A : Type) := {
  status_code : nat;
  payload : Payload A
}.
Arguments status_code {A} r.
Arguments payload {A} r.

Definition HTTP_200_OK : nat := 200.
Definition HTTP_201_CREATED : nat := 201.
Definition HTTP_204_NO_CONTENT : nat := 204.
Definition HTTP_400_BAD_REQUEST : nat := 400.
Definition HTTP_401_UNAUTHORIZED : nat := 401.

(** [UserSerializer(user).data]: the fields the serializer lists, [id]
    included; neither the password nor [is_active] is among them. *)
Record UserRepresentation := {
  repr_id : nat;
  repr_username : string;
  repr_email : string;
  repr_first_name : string;
  repr_last_name : string;
  repr_is_seller : bool;
  repr_phone_number : string;
  repr_address : string
}.

Definition UserSerializer_data (pk : nat) (u : User) : UserRepresentation :=
  {| repr_id := pk;
     repr_username := username u;
     repr_email := email u;
     repr_first_name := first_name u;
     repr_last_name := last_name u;
     repr_is_seller := is_seller u;
     repr_phone_number := phone_number u;
     repr_address := address u |}.

(** The requests that can write to the database: [POST], [PATCH] and
    [DELETE] on the three resources, and registration.  [PUT], the update
    that requires every field, is not among them. *)
Inductive Request :=
| POST_sold_products (data : SoldProductData)
| PATCH_sold_products (pk : nat) (data : SoldProductData)
| DELETE_sold_products (pk : nat)
| POST_products (data : ProductData)
| PATCH_products (category_param : option string) (pk : nat)
    (data : ProductData)
| DELETE_products (category_param : option string) (pk : nat)
| PATCH_users (pk : nat) (data : UserData)
| DELETE_users (pk : nat)
| POST_register (data : UserCreateData).

(** ** A small shop, for the examples *)

Module Shop.
(** The upper end of the integer range on PostgreSQL and MySQL. *)
Definition max_integer : Z := 2147483647.

Definition alice : User :=
  {| username := "alice"; email := "alice@example.org";
     first_name := "Alice"; last_name := "Rose"; is_seller := true;
     is_active := true; phone_number := "555-0101";
     address := "1 Garden Row" |}.
Definition bob : User :=
  {| username := "bob"; email := "bob@example.org";
     first_name := "Bob"; last_name := "Moss"; is_seller := false;
     is_active := true; phone_number := "555-0102";
     address := "2 Pond Lane" |}.
Definition carol : User :=
  {| username := "carol"; email := "carol@example.org";
     first_name := "Carol"; last_name := "Reed"; is_seller := true;
     is_active := true; phone_number := "555-0103";
     address := "3 Mill Road" |}.

(** Alice sells a fern (three left, 12.50 each) and a sold-out cactus. *)
Definition fern : Product :=
  {| name := "Fern"; description := "A shade-loving fern"; price := 1250;
     category := "Plants"; image := "products/fern.png"; stock := 3;
     seller := 1 |}.
Definition cactus : Product :=
  {| name := "Cactus"; description := "A small cactus"; price := 800;
     category := "Plants"; image := "products/cactus.png"; stock := 0;
     seller := 1 |}.

(** Bob's earlier order of one cactus. *)
Definition order0 : SoldProduct :=
  {| product := 2; buyer := 2; quantity := 1; total_price := 800;
     status := "Pending"; shipping_address := "2 Pond Lane" |}.

(** Nothing has been deleted yet. *)
Definition db : Database :=
  {| User_objects := {[ 1%nat := alice; 2%nat := bob; 3%nat := carol ]};
     Product_objects := {[ 1%nat := fern; 2%nat := cactus ]};
     SoldProduct_objects := {[ 0%nat := order0 ]};
     User_retired := ∅;
     Product_retired := ∅;
     SoldProduct_retired := ∅ |}.

Definition as_alice : RequestUser := AuthenticatedUser 1 alice.
Definition as_bob : RequestUser := AuthenticatedUser 2 bob.
Definition as_carol : RequestUser := AuthenticatedUser 3 carol.

(** Bob orders [q] ferns, stating [t] hundredths as the total. *)
Definition order_ferns (q t : Z) (st : option string) : SoldProductData :=
  {| data_product_id := Some 1%nat; data_buyer := None;
     data_quantity := Some q; data_total_price := Some t;
     data_status := st; data_shipping_address := Some "2 Pond Lane"%string |}.

Definition no_change : ProductData :=
  {| data_name := None; data_description := None; data_price := None;
     data_category := None; data_image := None; data_stock := None |}.

Definition new_price (x : Z) : ProductData :=
  {| data_name := None; data_description := None; data_price := Some x;
     data_category := None; data_image := None; data_stock := None |}.

(** A body for one fern that leaves [quantity] out. *)
Definition order_no_quantity : SoldProductData :=
  {| data_product_id := Some 1%nat; data_buyer := None;
     data_quantity := None; data_total_price := Some 1250;
     data_status := None; data_shipping_address := Some "2 Pond Lane"%string |}.

(** A pot to add to the catalogue, its name padded with spaces, and the
    same body without a name. *)
Definition new_pot : ProductData :=
  {| data_name := Some " Pot "%string;
     data_description := Some "A clay pot"%string;
     data_price := Some 500;
     data_category := Some "Pots & Planters"%string;
     data_image := Some "products/pot.png"%string;
     data_stock := None |}.
Definition unnamed_pot : ProductData :=
  {| data_name := None;
     data_description := Some "A clay pot"%string;
     data_price := Some 500;
     data_category := Some "Pots & Planters"%string;
     data_image := Some "products/pot.png"%string;
     data_stock := None |}.

Definition negative_stock : ProductData :=
  {| data_name := None; data_description := None; data_price := None;
     data_category := None; data_image := None; data_stock := Some (-5) |}.

(** A [PATCH] body for an order that states a new total and nothing else. *)
Definition new_total (t : Z) : SoldProductData :=
  {| data_product_id := None; data_buyer := None; data_quantity := None;
     data_total_price := Some t; data_status := None;
     data_shipping_address := None |}.

(** Bob asks to become a seller. *)
Definition become_seller : UserData :=
  {| data_username := None; data_email := None; data_first_name := None;
     data_last_name := None; data_is_seller := Some true;
     data_phone_number := None; data_address := None |}.

(** Field validators that find nothing to object to. *)
Definition no_user_errors (_ : Database) (_ : nat) (_ : UserData)
  : list (string * ErrorDetail) := [].

(** A rendering of exceptions, for the examples. *)
Definition show (e : Exception) : string :=
  match e with
  | ValidationError _ => "ValidationError"
  | NotAuthenticated => "NotAuthenticated"
  | PermissionDenied => "PermissionDenied"
  | Http404 => "Http404"
  | KeyError key => key
  | ValueError => "ValueError"
  end.
End Shop.

(** ** The front desk of the shop, for the examples *)

Module Desk.
(** Dave signs up, with and without a password. *)
Definition signup (password_ : option string) : UserCreateData :=
  {| reg_username := Some "dave"%string; reg_email := None;
     reg_first_name := None; reg_last_name := None;
     reg_password := password_; reg_is_seller := None;
     reg_phone_number := None; reg_address := None |}.

(** Field validators that find nothing to object to, and a normalisation
    that changes nothing. *)
Definition no_signup_errors (_ : Database) (_ : UserCreateData)
  : list (string * ErrorDetail) := [].
Definition same (s : string) : string := s.

(** Credentials checked against one clear-text password. *)
Definition check_password (db : Database) (username_ password_ : string)
  : option (nat * User) :=
  if bool_decide (username_ = "bob"%string ∧ password_ = "moss"%string)
  then (λ u, (2%nat, u)) <$> User_objects db !! 2%nat
  else None.

Definition credentials (username_ password_ : option string) : LoginData :=
  {| login_username := username_; login_password := password_ |}.
End Desk.

(** * The views *)

Section Backend.
(** The upper end of the range the database backend reports for a
    [PositiveIntegerField]: 2147483647 on PostgreSQL and MySQL, larger on
    SQLite.  Nothing in the application fixes it. *)
Variable PositiveIntegerField_max : Z.

(** ** views.py: permissions *)

Inductive Permission := AllowAny | IsAuthenticated | IsSeller.

Definition has_permission (perm : Permission) (user : RequestUser) : bool :=
  match perm with
  | AllowAny => true
  | IsAuthenticated => is_authenticated user
  | IsSeller => user_is_seller user
  end.

(** [APIView.check_permissions]: the first permission that refuses ends the
    request; an anonymous caller gets [NotAuthenticated], any other
    [PermissionDenied]. *)
Fixpoint check_permissions (perms : list Permission) (user : RequestUser)
  : Handler unit :=
  match perms with
  | [] => handler_ret tt
  | perm :: rest =>
      if has_permission perm user then check_permissions rest user
      else if is_authenticated user then raise PermissionDenied
      else raise NotAuthenticated
  end.

(** ** serializers.py: the fields *)

Definition required {A} (field : string) (v : option A)
  : list (string * ErrorDetail) :=
  match v with
  | None => [(field, Code "required")]
  | Some _ => []
  end.
Arguments required {A} field%_string v.

Definition validate_opt {A} (field : string) (ok : A → bool) (code : string)
    (v : option A) : list (string * ErrorDetail) :=
  match v with
  | Some x => if ok x then [] else [(field, Code code)]
  | None => []
  end.
Arguments validate_opt {A} field%_string ok code%_string v.

(** [serializers.CharField] on a text, as a list of error codes.  The text
    is trimmed first.  If nothing is left the field is refused as blank,
    unless it allows blanks, and no validator runs; otherwise the length
    and the null-character validators run on the trimmed text. *)
Definition CharField_codes (allow_blank : bool) (max_length : option nat)
    (s : string) : list string :=
  let value := strip s in
  if nonblank value then
    match max_length with
    | Some n => if bool_decide (len value ≤ n)%nat then [] else ["max_length"]
    | None => []
    end
    ++ (if has_null value then ["null_characters_not_allowed"] else [])
  else if allow_blank then []
  else ["blank"]%string.

Definition CharField_errors (field : string) (allow_blank : bool)
    (max_length : option nat) (v : option string)
  : list (string * ErrorDetail) :=
  match v with
  | Some s =>
      (λ code, (field, Code code)) <$> CharField_codes allow_blank max_length s
  | None => []
  end.
Arguments CharField_errors field%_string allow_blank max_length v.

(** ** serializers.py: SoldProductSerializer *)

(** The field checks [ModelSerializer] derives from the declarations:
    [product_id] is a required [PrimaryKeyRelatedField] over
    [Product.objects.all()]; [quantity] is optional and range-checked;
    [total_price] is required and writable, a decimal of at most ten
    digits; [status] is optional and must be one of [STATUS_CHOICES];
    [shipping_address] is a required [CharField]: it is trimmed and may not
    be blank. *)
Definition validate_product_id (db : Database) (v : option nat)
  : list (string * ErrorDetail) + (nat * Product) :=
  match v with
  | None => inl [("product_id", Code "required")]
  | Some pk =>
      match Product_objects db !! pk with
      | Some p => inr (pk, p)
      | None => inl [("product_id", Code "does_not_exist")]
      end
  end%string.

Definition validate_quantity (v : option Z)
  : list (string * ErrorDetail) :=
  match v with
  | None => []
  | Some q =>
      if decide (q < PositiveIntegerField_min) then
        [("quantity", Code "min_value")]
      else if decide (PositiveIntegerField_max < q) then
        [("quantity", Code "max_value")]
      else []
  end%string.

(** The code is [max_digits] or [max_whole_digits], according to how the
    number was written. *)
Definition validate_total_price (v : option Z)
  : list (string * ErrorDetail) :=
  match v with
  | None => [("total_price", Code "required")]
  | Some t =>
      if decide (DecimalField_fits t) then []
      else [("total_price", Code "max_digits")]
  end%string.

Definition validate_status (v : option string)
  : list (string * ErrorDetail) :=
  match v with
  | None => []
  | Some s =>
      if decide (s ∈ STATUS_CHOICES) then []
      else [("status", Code "invalid_choice")]
  end%string.

Definition validate_shipping_address (v : option string)
  : list (string * ErrorDetail) :=
  required "shipping_address" v
  ++ CharField_errors "shipping_address" false None v.

(** [serializer.is_valid(raise_exception=True)]: every field is checked and
    the messages of all failing fields are reported together.  The
    validated address is the trimmed one. *)
Definition SoldProductSerializer_is_valid (db : Database)
    (data : SoldProductData) : Result SoldProductValidated :=
  let errors :=
    validate_quantity (data_quantity data)
    ++ validate_total_price (data_total_price data)
    ++ validate_status (data_status data)
    ++ validate_shipping_address (data_shipping_address data) in
  match validate_product_id db (data_product_id data) with
  | inl e => Raise (ValidationError (e ++ errors))
  | inr (pk, p) =>
      match errors, data_total_price data, data_shipping_address data with
      | [], Some t, Some a =>
          Ok {| vd_product_pk := pk; vd_product := p;
                vd_quantity := data_quantity data;
                vd_total_price := t;
                vd_status := data_status data;
                vd_shipping_address := strip a |}
      | _, _, _ => Raise (ValidationError errors)
      end
  end.

(** [validated_data[key]] for a key the serializer may have left out. *)
Definition validated_quantity (vd : SoldProductValidated) : Handler Z :=
  match vd_quantity vd with
  | Some q => handler_ret q
  | None => raise (KeyError "quantity")
  end.

(** [product.save()]: the row with the instance's primary key is written. *)
Definition Product_save (pk : nat) (p : Product) : Handler unit :=
  do db <- get_db ;
  put_db (with_products db (<[pk := p]> (Product_objects db))).

(** [serializer.save(buyer=request.user)], that is
    [SoldProduct.objects.create] on the validated data and the buyer:
    fields the validated data lacks take the model defaults, the new row
    gets an unused primary key.  Django refuses an [AnonymousUser] as the
    value of a foreign key with [ValueError]. *)
Definition SoldProductSerializer_save (vd : SoldProductValidated)
    (buyer_ : RequestUser) : Handler (nat * SoldProduct) :=
  match buyer_ with
  | AnonymousUser => raise ValueError
  | AuthenticatedUser buyer_pk _ =>
      do db <- get_db ;
      let id := unused_pk (SoldProduct_objects db) (SoldProduct_retired db) in
      let instance :=
        {| product := vd_product_pk vd;
           buyer := buyer_pk;
           quantity := default SoldProduct_quantity_default (vd_quantity vd);
           total_price := vd_total_price vd;
           status := default SoldProduct_status_default (vd_status vd);
           shipping_address := vd_shipping_address vd |} in
      do_ put_db (with_sold_products db
                    (<[id := instance]> (SoldProduct_objects db))) ;
      handler_ret (id, instance)
  end.

(** ** views.py: SoldProductViewSet *)

Definition SoldProductViewSet_get_permissions (action : Action)
  : list Permission :=
  if decide (action ∈ [list_; retrieve]) then [AllowAny]
  else [IsAuthenticated].

Definition not_enough_stock (stock_left : Z) : string :=
  ("Not enough stock available. Only " +:+ pretty stock_left
   +:+ " items left.")%string.

Definition SoldProductViewSet_perform_create (user : RequestUser)
    (vd : SoldProductValidated) : Handler (nat * SoldProduct) :=
  let p := vd_product vd in
  do q <- validated_quantity vd ;
  if decide (stock p < q) then
    raise (ValidationError
             [("quantity"%string, Message (not_enough_stock (stock p)))])
  else
    do_ Product_save (vd_product_pk vd) (set_stock p (stock p - q)) ;
    SoldProductSerializer_save vd user.

(** [CreateModelMixin.create] behind the view set's permission check. *)
Definition SoldProductViewSet_create (user : RequestUser)
    (data : SoldProductData) : Handler (nat * SoldProduct) :=
  do_ check_permissions (SoldProductViewSet_get_permissions create) user ;
  do db <- get_db ;
  do vd <- lift_result (SoldProductSerializer_is_valid db data) ;
  SoldProductViewSet_perform_create user vd.

(** [GenericAPIView.get_object] on a query set: the row with that primary
    key, or a 404. *)
Definition get_object {A} (queryset : gmap nat A) (pk : nat) : Handler A :=
  match queryset !! pk with
  | Some obj => handler_ret obj
  | None => raise Http404
  end.

(** [action in ['list', 'retrieve']] *)
Definition is_read (action : Action) : bool :=
  bool_decide (action ∈ [list_; retrieve]).

(** The query set behind the action: the public branch for reads; otherwise
    a seller gets the orders of the products they sell, any other
    authenticated caller the orders they placed. *)
Definition SoldProductViewSet_get_queryset (action : Action)
    (user : RequestUser) (db : Database) : gmap nat SoldProduct :=
  if is_read action then SoldProduct_objects db
  else
    match user with
    | AuthenticatedUser user_pk u =>
        if is_seller u then
          filter (λ kv, seller <$> Product_objects db !! product kv.2
                        = Some user_pk)
                 (SoldProduct_objects db)
        else
          filter (λ kv, buyer kv.2 = user_pk) (SoldProduct_objects db)
    | AnonymousUser => ∅
    end.

Definition SoldProductViewSet_list (user : RequestUser)
  : Handler (gmap nat SoldProduct) :=
  do_ check_permissions (SoldProductViewSet_get_permissions list_) user ;
  do db <- get_db ;
  handler_ret (SoldProductViewSet_get_queryset list_ user db).

Definition SoldProductViewSet_retrieve (user : RequestUser) (pk : nat)
  : Handler SoldProduct :=
  do_ check_permissions (SoldProductViewSet_get_permissions retrieve) user ;
  do db <- get_db ;
  get_object (SoldProductViewSet_get_queryset retrieve user db) pk.

(** [instance.delete()] on an order: the row goes and its primary key is
    retired. *)
Definition SoldProduct_delete (pk : nat) : Handler unit :=
  do db <- get_db ;
  put_db {| User_objects := User_objects db;
            Product_objects := Product_objects db;
            SoldProduct_objects := delete pk (SoldProduct_objects db);
            User_retired := User_retired db;
            Product_retired := Product_retired db;
            SoldProduct_retired := {[pk]} ∪ SoldProduct_retired db |}.

(** [DestroyModelMixin.destroy]: [DELETE /sold-products/<pk>/]. *)
Definition SoldProductViewSet_destroy (user : RequestUser) (pk : nat)
  : Handler unit :=
  do_ check_permissions (SoldProductViewSet_get_permissions destroy) user ;
  do db <- get_db ;
  do_ get_object (SoldProductViewSet_get_queryset destroy user db) pk ;
  SoldProduct_delete pk.

(** A [PATCH] body is checked field by field like a [POST] body, but no
    field is required. *)
Definition SoldProductSerializer_partial_errors (db : Database)
    (data : SoldProductData) : list (string * ErrorDetail) :=
  match data_product_id data with
  | Some pk =>
      match Product_objects db !! pk with
      | Some _ => []
      | None => [("product_id"%string, Code "does_not_exist")]
      end
  | None => []
  end
  ++ validate_quantity (data_quantity data)
  ++ validate_opt "total_price" (λ t, bool_decide (DecimalField_fits t))
       "max_digits" (data_total_price data)
  ++ validate_status (data_status data)
  ++ CharField_errors "shipping_address" false None
       (data_shipping_address data).

(** [ModelSerializer.update]: each field present in the body is assigned,
    a text as trimmed by its field; [buyer] is read-only. *)
Definition SoldProductSerializer_update (o : SoldProduct)
    (data : SoldProductData) : SoldProduct :=
  {| product := default (product o) (data_product_id data);
     buyer := buyer o;
     quantity := default (quantity o) (data_quantity data);
     total_price := default (total_price o) (data_total_price data);
     status := default (status o) (data_status data);
     shipping_address :=
       default (shipping_address o) (strip <$> data_shipping_address data) |}.

(** [UpdateModelMixin.partial_update]: [PATCH /sold-products/<pk>/]; the
    view set does not override [perform_update]. *)
Definition SoldProductViewSet_partial_update (user : RequestUser) (pk : nat)
    (data : SoldProductData) : Handler SoldProduct :=
  do_ check_permissions (SoldProductViewSet_get_permissions partial_update) user ;
  do db <- get_db ;
  do instance <-
    get_object (SoldProductViewSet_get_queryset partial_update user db) pk ;
  match SoldProductSerializer_partial_errors db data with
  | [] =>
      let instance := SoldProductSerializer_update instance data in
      do_ put_db (with_sold_products db
                    (<[pk := instance]> (SoldProduct_objects db))) ;
      handler_ret instance
  | errors => raise (ValidationError errors)
  end.

(** ** views.py: ProductViewSet *)

Definition ProductViewSet_get_permissions (action : Action)
  : list Permission :=
  if is_read action then [AllowAny] else [IsAuthenticated; IsSeller].

(** [category] below is [query_params.get('category', None)], tested for
    its truth value. *)
Definition ProductViewSet_get_queryset (user : RequestUser)
    (category_param : option string) (db : Database) : gmap nat Product :=
  let queryset :=
    if is_authenticated user && user_is_seller user then Product_objects db
    else filter (λ kv, 0 < stock kv.2) (Product_objects db) in
  if truthy category_param then
    filter (λ kv, Some (category kv.2) = category_param) queryset
  else queryset.

Definition ProductViewSet_list (user : RequestUser)
    (category_param : option string) : Handler (gmap nat Product) :=
  do_ check_permissions (ProductViewSet_get_permissions list_) user ;
  do db <- get_db ;
  handler_ret (ProductViewSet_get_queryset user category_param db).

Definition ProductViewSet_retrieve (user : RequestUser)
    (category_param : option string) (pk : nat) : Handler Product :=
  do_ check_permissions (ProductViewSet_get_permissions retrieve) user ;
  do db <- get_db ;
  get_object (ProductViewSet_get_queryset user category_param db) pk.

(** The checks the model fields of [Product] give [ProductSerializer] on a
    [PATCH]: [name] is a [CharField] of at most 200 characters and
    [description] a [CharField], both trimmed and not blank; [price] is a
    decimal of at most ten digits; [category] is one of the choices, taken
    as it is; [stock] is within the range of the backend. *)
Definition ProductSerializer_errors (data : ProductData)
  : list (string * ErrorDetail) :=
  CharField_errors "name" false (Some 200%nat) (data_name data)
  ++ CharField_errors "description" false None (data_description data)
  ++ validate_opt "price" (λ x, bool_decide (DecimalField_fits x))
       "max_digits" (data_price data)
  ++ validate_opt "category" (λ c, bool_decide (c ∈ CATEGORY_CHOICES))
       "invalid_choice" (data_category data)
  ++ validate_opt "stock" (λ n, bool_decide (PositiveIntegerField_min ≤ n))
       "min_value" (data_stock data)
  ++ validate_opt "stock" (λ n, bool_decide (n ≤ PositiveIntegerField_max))
       "max_value" (data_stock data).

(** [ModelSerializer.update]: each field present in the body is assigned,
    a text as trimmed by its field. *)
Definition ProductSerializer_update (p : Product) (data : ProductData)
  : Product :=
  {| name := default (name p) (strip <$> data_name data);
     description := default (description p) (strip <$> data_description data);
     price := default (price p) (data_price data);
     category := default (category p) (data_category data);
     image := default (image p) (data_image data);
     stock := default (stock p) (data_stock data);
     seller := seller p |}.

(** [UpdateModelMixin.partial_update]: [PATCH /products/<pk>/]. *)
Definition ProductViewSet_partial_update (user : RequestUser)
    (category_param : option string) (pk : nat) (data : ProductData)
  : Handler Product :=
  do_ check_permissions (ProductViewSet_get_permissions partial_update) user ;
  do db <- get_db ;
  do instance <- get_object (ProductViewSet_get_queryset user category_param db) pk ;
  match ProductSerializer_errors data with
  | [] =>
      let instance := ProductSerializer_update instance data in
      do_ Product_save pk instance ;
      handler_ret instance
  | errors => raise (ValidationError errors)
  end.

(** [instance.delete()] on a product: the orders that reference it go with
    it ([on_delete=models.CASCADE] on [SoldProduct.product]); the primary
    keys of the rows that go are retired. *)
Definition Product_delete (pk : nat) : Handler unit :=
  do db <- get_db ;
  put_db {| User_objects := User_objects db;
            Product_objects := delete pk (Product_objects db);
            SoldProduct_objects :=
              filter (λ kv, product kv.2 ≠ pk) (SoldProduct_objects db);
            User_retired := User_retired db;
            Product_retired := {[pk]} ∪ Product_retired db;
            SoldProduct_retired :=
              dom (filter (λ kv, product kv.2 = pk) (SoldProduct_objects db))
              ∪ SoldProduct_retired db |}.

(** [DestroyModelMixin.destroy]: [DELETE /products/<pk>/]. *)
Definition ProductViewSet_destroy (user : RequestUser)
    (category_param : option string) (pk : nat) : Handler unit :=
  do_ check_permissions (ProductViewSet_get_permissions destroy) user ;
  do db <- get_db ;
  do_ get_object (ProductViewSet_get_queryset user category_param db) pk ;
  Product_delete pk.

(** On creation every field but [stock] is required ([price] is declared
    on the serializer, so the model default does not make it optional);
    [seller] is read-only and not taken from the body. *)
Definition ProductSerializer_create_errors (data : ProductData)
  : list (string * ErrorDetail) :=
  required "name" (data_name data)
  ++ required "description" (data_description data)
  ++ required "price" (data_price data)
  ++ required "category" (data_category data)
  ++ required "image" (data_image data)
  ++ ProductSerializer_errors data.

(** The validated texts are the trimmed ones. *)
Definition ProductSerializer_is_valid (data : ProductData)
  : Result ProductValidated :=
  match ProductSerializer_create_errors data,
        data_name data, data_description data, data_price data,
        data_category data, data_image data with
  | [], Some n, Some d, Some x, Some c, Some i =>
      Ok {| pvd_name := strip n; pvd_description := strip d;
            pvd_price := x; pvd_category := c; pvd_image := i;
            pvd_stock := data_stock data |}
  | errors, _, _, _, _, _ => Raise (ValidationError errors)
  end.

(** [serializer.save(seller=request.user)]: [Product.objects.create] on
    the validated data and the seller; the new row gets an unused primary
    key. *)
Definition ProductSerializer_save (vd : ProductValidated)
    (seller_ : RequestUser) : Handler (nat * Product) :=
  match seller_ with
  | AnonymousUser => raise ValueError
  | AuthenticatedUser seller_pk _ =>
      do db <- get_db ;
      let id := unused_pk (Product_objects db) (Product_retired db) in
      let instance :=
        {| name := pvd_name vd;
           description := pvd_description vd;
           price := pvd_price vd;
           category := pvd_category vd;
           image := pvd_image vd;
           stock := default Product_stock_default (pvd_stock vd);
           seller := seller_pk |} in
      do_ put_db (with_products db (<[id := instance]> (Product_objects db))) ;
      handler_ret (id, instance)
  end.

Section ProductViewSet_create.
(** Python's [str] of an exception. *)
Variable str : Exception → string.

(** A [ValidationError] built from a text has the text alone as its detail:
    the entry carries no field name. *)
Definition ProductViewSet_perform_create (user : RequestUser)
    (vd : ProductValidated) : Handler (nat * Product) :=
  try_except (ProductSerializer_save vd user)
    (λ e, raise (ValidationError [(EmptyString, Message (str e))])).

(** [create]: the permission check comes before the method is entered;
    whatever is raised inside it becomes a 400 response. *)
Definition ProductViewSet_create (user : RequestUser) (data : ProductData)
  : Handler (Response (nat * Product)) :=
  do_ check_permissions (ProductViewSet_get_permissions create) user ;
  try_except
    (do vd <- lift_result (ProductSerializer_is_valid data) ;
     do instance <- ProductViewSet_perform_create user vd ;
     handler_ret {| status_code := HTTP_201_CREATED;
                    payload := Data instance |})
    (λ e, handler_ret {| status_code := HTTP_400_BAD_REQUEST;
                         payload := Error (str e) |}).
End ProductViewSet_create.

(** ** views.py: UserViewSet *)

Definition UserViewSet_permission_classes : list Permission :=
  [IsAuthenticated].

(** [request.user.id]; [None] for [AnonymousUser]. *)
Definition request_user_id (user : RequestUser) : option nat :=
  match user with
  | AnonymousUser => None
  | AuthenticatedUser pk _ => Some pk
  end.

(** [User.objects.filter(id=self.request.user.id)] *)
Definition UserViewSet_get_queryset (user : RequestUser) (db : Database)
  : gmap nat User :=
  filter (λ kv, Some kv.1 = request_user_id user) (User_objects db).

Definition UserViewSet_retrieve (user : RequestUser) (pk : nat)
  : Handler User :=
  do_ check_permissions UserViewSet_permission_classes user ;
  do db <- get_db ;
  get_object (UserViewSet_get_queryset user db) pk.

(** [instance.delete()] on an account: its products go with it
    ([Product.seller]), and so do the orders it placed
    ([SoldProduct.buyer]) and the orders of its products
    ([SoldProduct.product]); all three are [on_delete=models.CASCADE].  The
    primary keys of the rows that go are retired. *)
Definition User_delete (pk : nat) : Handler unit :=
  do db <- get_db ;
  put_db {| User_objects := delete pk (User_objects db);
            Product_objects :=
              filter (λ kv, seller kv.2 ≠ pk) (Product_objects db);
            SoldProduct_objects :=
              filter (λ kv, buyer kv.2 ≠ pk
                            ∧ seller <$> Product_objects db !! product kv.2
                              ≠ Some pk)
                     (SoldProduct_objects db);
            User_retired := {[pk]} ∪ User_retired db;
            Product_retired :=
              dom (filter (λ kv, seller kv.2 = pk) (Product_objects db))
              ∪ Product_retired db;
            SoldProduct_retired :=
              dom (filter (λ kv, ¬ (buyer kv.2 ≠ pk
                                    ∧ seller <$> Product_objects db
                                                 !! product kv.2
                                      ≠ Some pk))
                          (SoldProduct_objects db))
              ∪ SoldProduct_retired db |}.

Definition UserViewSet_destroy (user : RequestUser) (pk : nat)
  : Handler unit :=
  do_ check_permissions UserViewSet_permission_classes user ;
  do db <- get_db ;
  do_ get_object (UserViewSet_get_queryset user db) pk ;
  User_delete pk.

(** The two fields models.py adds to the account are checked as declared:
    [phone_number] is a [CharField] of at most 15 characters, [address] a
    [CharField]; both may be blank. *)
Definition User_own_field_errors (phone_number_ address_ : option string)
  : list (string * ErrorDetail) :=
  CharField_errors "phone_number" true (Some 15%nat) phone_number_
  ++ CharField_errors "address" true None address_.

(** [ModelSerializer.update]: each field present in the body is assigned,
    a text as trimmed by its field. *)
Definition UserSerializer_update (u : User) (data : UserData) : User :=
  {| username := default (username u) (strip <$> data_username data);
     email := default (email u) (strip <$> data_email data);
     first_name := default (first_name u) (strip <$> data_first_name data);
     last_name := default (last_name u) (strip <$> data_last_name data);
     is_seller := default (is_seller u) (data_is_seller data);
     is_active := is_active u;
     phone_number :=
       default (phone_number u) (strip <$> data_phone_number data);
     address := default (address u) (strip <$> data_address data) |}.

Section UserViewSet_update.
(** The validators of the fields [UserSerializer] takes from Django's
    [AbstractUser] (user name syntax, length and uniqueness, e-mail syntax,
    lengths of the names) are not code of this application and are taken as
    given: the messages for the instance [pk] and a body, against a
    database. *)
Variable UserSerializer_errors :
  Database → nat → UserData → list (string * ErrorDetail).

Definition UserViewSet_partial_update (user : RequestUser) (pk : nat)
    (data : UserData) : Handler User :=
  do_ check_permissions UserViewSet_permission_classes user ;
  do db <- get_db ;
  do instance <- get_object (UserViewSet_get_queryset user db) pk ;
  match UserSerializer_errors db pk data
        ++ User_own_field_errors (data_phone_number data) (data_address data)
  with
  | [] =>
      let instance := UserSerializer_update instance data in
      do_ put_db (with_users db (<[pk := instance]> (User_objects db))) ;
      handler_ret instance
  | errors => raise (ValidationError errors)
  end.
End UserViewSet_update.

(** ** views.py: the custom actions of UserViewSet

    A view that changes who the session belongs to returns, beside its
    response, the [request.user] of the session afterwards. *)

(** [current_user]: under the view set's [IsAuthenticated]. *)
Definition UserViewSet_current_user (user : RequestUser)
  : Handler (Response UserRepresentation) :=
  do_ check_permissions UserViewSet_permission_classes user ;
  match user with
  | AuthenticatedUser pk u =>
      handler_ret {| status_code := HTTP_200_OK;
                     payload := Data (UserSerializer_data pk u) |}
  | AnonymousUser => raise NotAuthenticated
  end.

(** [logout]: under the view set's [IsAuthenticated] as well, the action
    declares no permission of its own. *)
Definition UserViewSet_logout (user : RequestUser)
  : Handler (Response unit * RequestUser) :=
  do_ check_permissions UserViewSet_permission_classes user ;
  handler_ret ({| status_code := HTTP_204_NO_CONTENT; payload := Empty |},
               AnonymousUser).

Section UserViewSet_login.
(** [django.contrib.auth.authenticate(username=..., password=...)]: the
    account the credentials belong to, if any.  It verifies the password
    hash and is taken as given. *)
Variable authenticate : Database → string → string → option (nat * User).

(** The credentials are read from the body as they are, no serializer is
    involved.  [django.contrib.auth.login] also stamps [last_login] on the
    account, a column the rows here do not have: of the columns they have,
    none is written. *)
Definition UserViewSet_login (user : RequestUser) (data : LoginData)
  : Handler (Response UserRepresentation * RequestUser) :=
  do_ check_permissions [AllowAny] user ;
  if negb (truthy (login_username data)) || negb (truthy (login_password data))
  then
    handler_ret ({| status_code := HTTP_400_BAD_REQUEST;
                    payload := Error "Please provide both username and password" |},
                 user)
  else
    do db <- get_db ;
    match authenticate db (default EmptyString (login_username data))
                       (default EmptyString (login_password data)) with
    | Some (pk, u) =>
        if is_active u then
          handler_ret ({| status_code := HTTP_200_OK;
                          payload := Data (UserSerializer_data pk u) |},
                       AuthenticatedUser pk u)
        else
          handler_ret ({| status_code := HTTP_401_UNAUTHORIZED;
                          payload := Error "User account is disabled" |},
                       user)
    | None =>
        handler_ret ({| status_code := HTTP_401_UNAUTHORIZED;
                        payload := Error "Invalid username or password" |},
                     user)
    end.
End UserViewSet_login.

(** ** serializers.py: UserCreateSerializer *)

Section UserViewSet_register.
(** The validators of the fields taken from [AbstractUser] (user name
    syntax, length and uniqueness, e-mail syntax, lengths of the names) and
    the two normalisations [create_user] applies are not code of this
    application; they are taken as given.  The password hash [create_user]
    computes is not part of the row. *)
Variable AbstractUser_errors :
  Database → UserCreateData → list (string * ErrorDetail).
Variable normalize_username : string → string.
Variable normalize_email : string → string.

(** [username] and [password] are required; [password] is a [CharField]:
    it is trimmed and may not be blank; every other field may be left out.
    The order of the keys of [serializer.errors] carries no meaning. *)
Definition UserCreateSerializer_errors (db : Database) (data : UserCreateData)
  : list (string * ErrorDetail) :=
  required "username" (reg_username data)
  ++ AbstractUser_errors db data
  ++ required "password" (reg_password data)
  ++ CharField_errors "password" false None (reg_password data)
  ++ User_own_field_errors (reg_phone_number data) (reg_address data).

(** The validated text of a field that may be left out, or the default the
    method gives it. *)
Definition validated_get (v : option string) : string :=
  default EmptyString (strip <$> v).

(** [UserCreateSerializer.create]: [create_user] on the validated, that is
    trimmed, texts, with the defaults the method spells out; a new account
    is active. *)
Definition UserCreateSerializer_create (username_ : string)
    (data : UserCreateData) : Handler (nat * User) :=
  do db <- get_db ;
  let pk := unused_pk (User_objects db) (User_retired db) in
  let user :=
    {| username := normalize_username (strip username_);
       email := normalize_email (validated_get (reg_email data));
       first_name := validated_get (reg_first_name data);
       last_name := validated_get (reg_last_name data);
       is_seller := default false (reg_is_seller data);
       is_active := true;
       phone_number := validated_get (reg_phone_number data);
       address := validated_get (reg_address data) |} in
  do_ put_db (with_users db (<[pk := user]> (User_objects db))) ;
  handler_ret (pk, user).

(** [register]: open to everyone; on success the new account is logged in
    (which also stamps [last_login], a column the rows here do not
    have). *)
Definition UserViewSet_register (user : RequestUser) (data : UserCreateData)
  : Handler (Response UserRepresentation * RequestUser) :=
  do_ check_permissions [AllowAny] user ;
  do db <- get_db ;
  match UserCreateSerializer_errors db data,
        reg_username data, reg_password data with
  | [], Some username_, Some _ =>
      do created <- UserCreateSerializer_create username_ data ;
      handler_ret ({| status_code := HTTP_201_CREATED;
                      payload := Data (UserSerializer_data created.1 created.2) |},
                   AuthenticatedUser created.1 created.2)
  | errors, _, _ =>
      handler_ret ({| status_code := HTTP_400_BAD_REQUEST;
                      payload := Errors errors |}, user)
  end.
End UserViewSet_register.

(** ** Sequences of purchases *)

(** The databases reached after each of a series of [POST /sold-products/]
    requests, whether the request succeeds or not. *)
Fixpoint purchases (requests : list (RequestUser * SoldProductData))
    (db : Database) : list Database :=
  match requests with
  | [] => []
  | (user, data) :: rest =>
      let db' := (SoldProductViewSet_create user data db).2 in
      db' :: purchases rest db'
  end.

(** [Product.stock] is never negative anywhere in the catalogue. *)
Definition stock_nonnegative (db : Database) : Prop :=
  map_Forall (λ _ p, 0 ≤ stock p) (Product_objects db).

(** ** The API as a whole *)

(** The session middleware: [request.user] is the row the session's user
    id names, loaded at each request; a session without a user, or whose
    account is gone or inactive, is anonymous. *)
Definition request_user (db : Database) (session : option nat)
  : RequestUser :=
  match session with
  | Some pk =>
      match User_objects db !! pk with
      | Some u => if is_active u then AuthenticatedUser pk u else AnonymousUser
      | None => AnonymousUser
      end
  | None => AnonymousUser
  end.

Section API.
Variable str : Exception → string.
Variable UserSerializer_errors :
  Database → nat → UserData → list (string * ErrorDetail).
Variable AbstractUser_errors :
  Database → UserCreateData → list (string * ErrorDetail).
Variable normalize_username : string → string.
Variable normalize_email : string → string.

(** The database after one request of a session. *)
Definition handle (session : option nat) (request : Request) (db : Database)
  : Database :=
  let user := request_user db session in
  match request with
  | POST_sold_products data => (SoldProductViewSet_create user data db).2
  | PATCH_sold_products pk data =>
      (SoldProductViewSet_partial_update user pk data db).2
  | DELETE_sold_products pk => (SoldProductViewSet_destroy user pk db).2
  | POST_products data => (ProductViewSet_create str user data db).2
  | PATCH_products c pk data =>
      (ProductViewSet_partial_update user c pk data db).2
  | DELETE_products c pk => (ProductViewSet_destroy user c pk db).2
  | PATCH_users pk data =>
      (UserViewSet_partial_update UserSerializer_errors user pk data db).2
  | DELETE_users pk => (UserViewSet_destroy user pk db).2
  | POST_register data =>
      (UserViewSet_register AbstractUser_errors normalize_username
         normalize_email user data db).2
  end.

(** The databases reached after each request of a series. *)
Fixpoint run (requests : list (option nat * Request)) (db : Database)
  : list Database :=
  match requests with
  | [] => []
  | (session, request) :: rest =>
      let db' := handle session request db in
      db' :: run rest db'
  end.
End API.

(** Every foreign key names a row: the seller of a product is an account,
    the product and the buyer of an order are there. *)
Definition foreign_keys_valid (db : Database) : Prop :=
  map_Forall (λ _ p, is_Some (User_objects db !! seller p))
             (Product_objects db)
  ∧ map_Forall (λ _ o, is_Some (Product_objects db !! product o)
                       ∧ is_Some (User_objects db !! buyer o))
               (SoldProduct_objects db).

(** The units of product [pid] the order table accounts for. *)
Definition units_sold (pid : nat) (db : Database) : Z :=
  map_fold (λ _ o total,
              if decide (product o = pid) then quantity o + total else total)
           0 (SoldProduct_objects db).

(** The stock of product [pid], if it is in the catalogue. *)
Definition stock_of (pid : nat) (db : Database) : option Z :=
  stock <$> Product_objects db !! pid.
(** * Properties *)

(** ** Shared facts *)

Lemma check_permissions_db perms user db :
  (check_permissions perms user db).2 = db.
Proof.
  induction perms as [|perm rest IH]; simpl; [done|].
  destruct (has_permission perm user); [done|].
  by destruct (is_authenticated user).
Qed.

Lemma check_permissions_Ok perms user db :
  (∀ perm, perm ∈ perms → has_permission perm user = true) →
  check_permissions perms user db = (Ok tt, db).
Proof.
  induction perms as [|perm rest IH]; intros Hall; simpl; [done|].
  rewrite Hall by left. apply IH. intros ? ?. apply Hall. by right.
Qed.

Lemma check_permissions_inv perms user db r db' :
  check_permissions perms user db = (Ok r, db') →
  ∀ perm, perm ∈ perms → has_permission perm user = true.
Proof.
  induction perms as [|perm rest IH]; simpl; intros Hrun p Hp.
  - by apply elem_of_nil in Hp.
  - destruct (has_permission perm user) eqn:Hperm.
    + apply elem_of_cons in Hp as [->|Hp]; [done|]. by apply IH.
    + by destruct (is_authenticated user).
Qed.

(** What a body that passes validation looks like. *)
Lemma SoldProductSerializer_is_valid_Ok db data vd :
  SoldProductSerializer_is_valid db data = Ok vd →
  data_product_id data = Some (vd_product_pk vd)
  ∧ Product_objects db !! vd_product_pk vd = Some (vd_product vd)
  ∧ vd_quantity vd = data_quantity data
  ∧ data_total_price data = Some (vd_total_price vd)
  ∧ vd_status vd = data_status data
  ∧ strip <$> data_shipping_address data = Some (vd_shipping_address vd)
  ∧ validate_quantity (data_quantity data) = []
  ∧ validate_status (data_status data) = []
  ∧ validate_shipping_address (data_shipping_address data) = [].
Proof.
  unfold SoldProductSerializer_is_valid, validate_product_id.
  destruct (data_product_id data) as [pk|]; [|done].
  destruct (Product_objects db !! pk) as [p|] eqn:Hp; [|done].
  destruct (validate_quantity _) eqn:Hq; [|done].
  destruct (validate_total_price _) eqn:Ht; [|done].
  destruct (validate_status _) eqn:Hs; [|done].
  destruct (validate_shipping_address _) eqn:Ha; [|done].
  simpl. destruct (data_total_price data); [|done].
  destruct (data_shipping_address data); [|done].
  intros [= <-]. simpl. done.
Qed.

(** After the permission check, a purchase is validation followed by
    [perform_create]. *)
Lemma SoldProductViewSet_create_authenticated user data db :
  is_authenticated user = true →
  SoldProductViewSet_create user data db =
    match SoldProductSerializer_is_valid db data with
    | Ok vd => SoldProductViewSet_perform_create user vd db
    | Raise e => (Raise e, db)
    end.
Proof.
  intros Hauth. unfold SoldProductViewSet_create, handler_bind. simpl.
  rewrite Hauth. simpl. unfold lift_result.
  by destruct (SoldProductSerializer_is_valid db data).
Qed.

Lemma SoldProductViewSet_create_anonymous data db :
  SoldProductViewSet_create AnonymousUser data db = (Raise NotAuthenticated, db).
Proof. done. Qed.

(** A purchase that raises leaves the database as it found it. *)
Lemma SoldProductViewSet_create_Raise user data db e db' :
  SoldProductViewSet_create user data db = (Raise e, db') → db' = db.
Proof.
  destruct user as [|upk u].
  - rewrite SoldProductViewSet_create_anonymous. by intros [= _ <-].
  - rewrite SoldProductViewSet_create_authenticated by done.
    destruct (SoldProductSerializer_is_valid db data) as [vd|e0];
      [|by intros [= _ <-]].
    unfold SoldProductViewSet_perform_create, validated_quantity, handler_bind.
    destruct (vd_quantity vd) as [q|]; simpl; [|by intros [= _ <-]].
    case_decide; simpl; [by intros [= _ <-]|done].
Qed.

(** The outcome of a purchase whose body passed validation and whose
    quantity does not exceed the stock. *)
Lemma SoldProductViewSet_perform_create_Ok upk u vd q db :
  vd_quantity vd = Some q →
  ¬ stock (vd_product vd) < q →
  let id := unused_pk (SoldProduct_objects db) (SoldProduct_retired db) in
  let instance :=
    {| product := vd_product_pk vd; buyer := upk; quantity := q;
       total_price := vd_total_price vd;
       status := default SoldProduct_status_default (vd_status vd);
       shipping_address := vd_shipping_address vd |} in
  SoldProductViewSet_perform_create (AuthenticatedUser upk u) vd db =
    (Ok (id, instance),
     {| User_objects := User_objects db;
        Product_objects :=
          <[vd_product_pk vd :=
              set_stock (vd_product vd) (stock (vd_product vd) - q)]>
            (Product_objects db);
        SoldProduct_objects := <[id := instance]> (SoldProduct_objects db);
        User_retired := User_retired db;
        Product_retired := Product_retired db;
        SoldProduct_retired := SoldProduct_retired db |}).
Proof.
  intros Hq Hstock. simpl.
  unfold SoldProductViewSet_perform_create, validated_quantity, handler_bind.
  rewrite Hq. simpl. rewrite decide_False by done. by rewrite Hq.
Qed.

(** C1. A purchase asking for more than the stock is refused with the
    message "Not enough stock available. Only N items left." under the key
    [quantity], N being the current stock, and changes nothing: the stock
    is what it was and no order is added.  More generally, whenever a
    purchase request raises, the database is the one before the request. *)
Theorem purchase_beyond_stock_refused user data db vd pid p q :
  is_authenticated user = true →
  SoldProductSerializer_is_valid db data = Ok vd →
  data_product_id data = Some pid →
  Product_objects db !! pid = Some p →
  data_quantity data = Some q →
  stock p < q →
  SoldProductViewSet_create user data db =
    (Raise (ValidationError
       [("quantity"%string,
         Message ("Not enough stock available. Only " +:+ pretty (stock p)
                  +:+ " items left.")%string)]), db)
  ∧ ∀ user' data' db0 e db',
      SoldProductViewSet_create user' data' db0 = (Raise e, db') → db' = db0.
Proof.
  intros Hauth Hvalid Hpid Hp Hq Hlt. split.
  - rewrite SoldProductViewSet_create_authenticated, Hvalid by done.
    apply SoldProductSerializer_is_valid_Ok in Hvalid
      as (Hpk & Hrow & Hvq & _).
    assert (vd_product vd = p) as Hrow' by congruence.
    unfold SoldProductViewSet_perform_create, validated_quantity, handler_bind.
    rewrite Hvq, Hq, Hrow'. simpl. by rewrite decide_True.
  - intros ? ? ? ? ?. apply SoldProductViewSet_create_Raise.
Qed.

(** C3. A purchase by an authenticated caller whose body passes validation
    and whose quantity is at most the stock succeeds; the product's row is
    saved with its stock lowered by exactly that quantity, every other
    product is untouched, and when the quantity equals the stock the saved
    stock is 0. *)
Theorem purchase_within_stock_succeeds user data db vd pid p q :
  is_authenticated user = true →
  SoldProductSerializer_is_valid db data = Ok vd →
  data_product_id data = Some pid →
  Product_objects db !! pid = Some p →
  data_quantity data = Some q →
  q ≤ stock p →
  ∃ order db',
    SoldProductViewSet_create user data db = (Ok order, db')
    ∧ Product_objects db' = <[pid := set_stock p (stock p - q)]> (Product_objects db)
    ∧ stock <$> Product_objects db' !! pid = Some (stock p - q)
    ∧ (q = stock p → stock <$> Product_objects db' !! pid = Some 0).
Proof.
  intros Hauth Hvalid Hpid Hp Hq Hle.
  destruct user as [|upk u]; [done|].
  rewrite SoldProductViewSet_create_authenticated, Hvalid by done.
  apply SoldProductSerializer_is_valid_Ok in Hvalid as (Hpk & Hrow & Hvq & _).
  assert (vd_product_pk vd = pid) as Hpk' by congruence.
  assert (vd_product vd = p) as Hrow' by congruence.
  rewrite (SoldProductViewSet_perform_create_Ok upk u vd q db);
    [|congruence|rewrite Hrow'; lia].
  rewrite Hpk', Hrow'. eexists _, _. split; [done|]. simpl.
  split; [done|]. rewrite lookup_insert_eq. simpl. split; [done|].
  intros ->. f_equal. lia.
Qed.

(** One purchase request, accepted or refused, keeps every stock at or
    above zero. *)
Lemma SoldProductViewSet_create_stock_nonnegative user data db :
  stock_nonnegative db →
  stock_nonnegative (SoldProductViewSet_create user data db).2.
Proof.
  intros Hinv.
  destruct (SoldProductViewSet_create user data db) as [[order|e] db'] eqn:Hrun;
    simpl; [|by apply SoldProductViewSet_create_Raise in Hrun as ->].
  destruct user as [|upk u];
    [by rewrite SoldProductViewSet_create_anonymous in Hrun|].
  rewrite SoldProductViewSet_create_authenticated in Hrun by done.
  destruct (SoldProductSerializer_is_valid db data) as [vd|] eqn:Hvalid;
    [|done].
  revert Hrun.
  unfold SoldProductViewSet_perform_create, validated_quantity, handler_bind.
  destruct (vd_quantity vd) as [q|]; simpl; [|done].
  case_decide as Hstock; simpl; [done|]. intros [= _ <-].
  unfold stock_nonnegative. simpl.
  apply map_Forall_insert_2; [simpl; lia|done].
Qed.

(** C4. Starting from a catalogue without negative stock, after every
    request of any series of purchase requests (accepted or refused) no
    product has negative stock. *)
Theorem stock_never_negative requests db :
  stock_nonnegative db →
  Forall stock_nonnegative (purchases requests db).
Proof.
  revert db. induction requests as [|[user data] rest IH]; intros db Hinv.
  - constructor.
  - simpl. pose proof (SoldProductViewSet_create_stock_nonnegative
                         user data db Hinv) as Hnext.
    constructor; [done|]. by apply IH.
Qed.

(** What a successful purchase stores and returns. *)
Lemma SoldProductViewSet_create_Ok user data db pk order db' :
  SoldProductViewSet_create user data db = (Ok (pk, order), db') →
  ∃ vd q,
    SoldProductSerializer_is_valid db data = Ok vd
    ∧ vd_quantity vd = Some q
    ∧ ¬ stock (vd_product vd) < q
    ∧ request_user_id user = Some (buyer order)
    ∧ product order = vd_product_pk vd
    ∧ quantity order = q
    ∧ total_price order = vd_total_price vd
    ∧ status order = default SoldProduct_status_default (vd_status vd)
    ∧ shipping_address order = vd_shipping_address vd
    ∧ pk = unused_pk (SoldProduct_objects db) (SoldProduct_retired db)
    ∧ SoldProduct_objects db' = <[pk := order]> (SoldProduct_objects db).
Proof.
  destruct user as [|upk u];
    [by rewrite SoldProductViewSet_create_anonymous|].
  rewrite SoldProductViewSet_create_authenticated by done.
  destruct (SoldProductSerializer_is_valid db data) as [vd|]; [|done].
  destruct (vd_quantity vd) as [q|] eqn:Hq.
  - destruct (decide (stock (vd_product vd) < q)) as [Hlt|Hge].
    + unfold SoldProductViewSet_perform_create, validated_quantity,
        handler_bind. rewrite Hq. simpl. by rewrite decide_True.
    + rewrite (SoldProductViewSet_perform_create_Ok upk u vd q db) by done.
      intros [= <- <- <-]. exists vd, q. simpl. done.
  - unfold SoldProductViewSet_perform_create, validated_quantity,
      handler_bind. by rewrite Hq.
Qed.

(** A product update never touches the order table. *)
Lemma ProductViewSet_partial_update_orders user c pk data db :
  SoldProduct_objects (ProductViewSet_partial_update user c pk data db).2
  = SoldProduct_objects db.
Proof.
  unfold ProductViewSet_partial_update, handler_bind.
  destruct (check_permissions _ user db) as [[[]|e] db1] eqn:Hperm;
    pose proof (check_permissions_db
                  (ProductViewSet_get_permissions partial_update) user db)
      as Hdb; rewrite Hperm in Hdb; simpl in Hdb; subst db1; [|done].
  simpl. unfold get_object.
  destruct (ProductViewSet_get_queryset user c db !! pk); [|done].
  simpl. by destruct (ProductSerializer_errors data).
Qed.

(** C2, as the code has it.  The total price of the order a purchase
    creates is the [total_price] sent in the request body; the view does not
    derive it from the product's price.  The order is stored with that
    value, and no later [PATCH] of a product, by whomever and whatever its
    body, changes the order table. *)
Theorem total_price_taken_from_request user data db pk order db' :
  SoldProductViewSet_create user data db = (Ok (pk, order), db') →
  data_total_price data = Some (total_price order)
  ∧ SoldProduct_objects db' !! pk = Some order
  ∧ ∀ editor c ppk pdata,
      SoldProduct_objects
        (ProductViewSet_partial_update editor c ppk pdata db').2 !! pk
      = Some order.
Proof.
  intros Hrun.
  apply SoldProductViewSet_create_Ok in Hrun
    as (vd & q & Hvalid & _ & _ & _ & _ & _ & Htotal & _ & _ & _ & Hstore).
  apply SoldProductSerializer_is_valid_Ok in Hvalid
    as (_ & _ & _ & Ht & _).
  assert (SoldProduct_objects db' !! pk = Some order) as Hlook
    by (rewrite Hstore; apply lookup_insert_eq).
  split; [congruence|]. split; [done|].
  intros. by rewrite ProductViewSet_partial_update_orders.
Qed.

(** C7, as the code has it.  The buyer of an order created by a purchase is
    the authenticated caller, whatever [buyer] the body names.  Its status
    is the [status] of the body when the body has one, and then one of the
    five choices; it is "Pending" only when the body has none. *)
Theorem order_buyer_is_caller_status_from_request user data db pk order db' :
  SoldProductViewSet_create user data db = (Ok (pk, order), db') →
  request_user_id user = Some (buyer order)
  ∧ status order = default "Pending"%string (data_status data)
  ∧ status order ∈ STATUS_CHOICES
  ∧ SoldProduct_objects db' !! pk = Some order.
Proof.
  intros Hrun.
  apply SoldProductViewSet_create_Ok in Hrun
    as (vd & q & Hvalid & _ & _ & Hbuyer & _ & _ & _ & Hstatus & _ & _ & Hstore).
  apply SoldProductSerializer_is_valid_Ok in Hvalid
    as (_ & _ & _ & _ & Hvs & _ & _ & Hchoice & _).
  rewrite Hvs in Hstatus.
  split; [done|]. split; [done|]. split.
  - rewrite Hstatus. unfold validate_status in Hchoice.
    destruct (data_status data) as [s|]; simpl.
    + by case_decide.
    + unfold SoldProduct_status_default, STATUS_CHOICES. set_solver.
  - rewrite Hstore. apply lookup_insert_eq.
Qed.

(** C8, as the code has it.  A purchase request with a negative quantity is
    turned down by the serializer, before [perform_create] and without any
    write.  Zero is within the range of the field, so what holds of an order
    stored by a purchase is that its quantity is the one requested and is
    at least 0. *)
Theorem negative_quantity_rejected_upstream user data db :
  (∀ q, data_quantity data = Some q → q < 0 →
     (∃ errors,
        SoldProductSerializer_is_valid db data = Raise (ValidationError errors))
     ∧ (∃ e, SoldProductViewSet_create user data db = (Raise e, db)))
  ∧ (∀ pk order db',
       SoldProductViewSet_create user data db = (Ok (pk, order), db') →
       data_quantity data = Some (quantity order) ∧ 0 ≤ quantity order).
Proof.
  split.
  - intros q Hq Hneg.
    assert (∃ errors, SoldProductSerializer_is_valid db data
                      = Raise (ValidationError errors)) as [errors Herr].
    { unfold SoldProductSerializer_is_valid. rewrite Hq.
      unfold validate_quantity, PositiveIntegerField_min.
      rewrite decide_True by done.
      destruct (validate_product_id db (data_product_id data)) as [e|[pid p]];
        eauto. }
    split; [by eexists|].
    destruct user as [|upk u]; [by eexists|].
    rewrite SoldProductViewSet_create_authenticated, Herr by done. by eexists.
  - intros pk order db' Hrun.
    apply SoldProductViewSet_create_Ok in Hrun
      as (vd & q & Hvalid & Hvq & _ & _ & _ & Hquantity & _).
    apply SoldProductSerializer_is_valid_Ok in Hvalid
      as (_ & _ & Hdq & _ & _ & _ & Hrange & _).
    rewrite Hdq in Hvq. rewrite Hquantity. split; [done|].
    rewrite Hvq in Hrange. unfold validate_quantity in Hrange.
    unfold PositiveIntegerField_min in Hrange.
    case_decide; [done|]. lia.
Qed.

(** Membership in the catalogue query set. *)
Lemma ProductViewSet_get_queryset_lookup user c db pk p :
  ProductViewSet_get_queryset user c db !! pk = Some p ↔
    Product_objects db !! pk = Some p
    ∧ (user_is_seller user = true ∨ 0 < stock p)
    ∧ (truthy c = true → Some (category p) = c).
Proof.
  unfold ProductViewSet_get_queryset.
  assert (is_authenticated user && user_is_seller user = user_is_seller user)
    as -> by (by destruct user).
  destruct (user_is_seller user), (truthy c);
    rewrite ?map_lookup_filter_Some; simpl;
    intuition (auto; congruence).
Qed.

(** C5, as the code has it.  Listing the catalogue needs no permission.  A
    caller who is an authenticated seller is shown every product of every
    seller, out-of-stock ones included, and so all of their own; any other
    caller (anonymous or not a seller) is shown exactly the products with
    stock above 0.  The category filter, when given, applies on top.  An
    anonymous caller therefore never sees a product with stock 0. *)
Theorem catalog_list_scope user c db :
  ProductViewSet_list user c db
    = (Ok (ProductViewSet_get_queryset user c db), db)
  ∧ (user_is_seller user = true →
     ∀ pk p, ProductViewSet_get_queryset user c db !! pk = Some p ↔
             Product_objects db !! pk = Some p
             ∧ (truthy c = true → Some (category p) = c))
  ∧ (user_is_seller user = false →
     ∀ pk p, ProductViewSet_get_queryset user c db !! pk = Some p ↔
             Product_objects db !! pk = Some p
             ∧ 0 < stock p
             ∧ (truthy c = true → Some (category p) = c))
  ∧ (∀ pk p, ProductViewSet_get_queryset AnonymousUser c db !! pk = Some p →
             stock p ≠ 0).
Proof.
  split; [done|]. split; [|split].
  - intros Hseller pk p. rewrite ProductViewSet_get_queryset_lookup.
    intuition auto.
  - intros Hseller pk p. rewrite ProductViewSet_get_queryset_lookup.
    rewrite Hseller. intuition (auto; congruence).
  - intros pk p. rewrite ProductViewSet_get_queryset_lookup. simpl.
    intros (_ & [?|?] & _); [done|lia].
Qed.

(** The two permissions of a catalogue write come down to one test. *)
Lemma ProductViewSet_write_permissions user action db :
  is_read action = false →
  check_permissions (ProductViewSet_get_permissions action) user db =
    if user_is_seller user then (Ok tt, db)
    else if is_authenticated user then (Raise PermissionDenied, db)
    else (Raise NotAuthenticated, db).
Proof.
  intros Hwrite. unfold ProductViewSet_get_permissions. rewrite Hwrite.
  by destruct user as [|upk [? ? ? ? [] ? ? ?]].
Qed.

(** C6, as the code has it.  A catalogue write ([PATCH] or [DELETE] of a
    product) is gated on the caller being an authenticated seller, not on
    owning the product.  A caller who is not a seller is refused and the
    database stays as it was; a write that succeeds was made by a seller;
    and any seller, owner or not, succeeds on every product of the table
    (no category filter, a body without errors; a name or description of
    white space alone is an error). *)
Theorem product_write_requires_seller_only user c pk data db :
  (user_is_seller user = false →
     ∃ e, (e = NotAuthenticated ∨ e = PermissionDenied)
          ∧ ProductViewSet_partial_update user c pk data db = (Raise e, db)
          ∧ ProductViewSet_destroy user c pk db = (Raise e, db))
  ∧ (∀ p db', ProductViewSet_partial_update user c pk data db = (Ok p, db') →
              user_is_seller user = true)
  ∧ (∀ db', ProductViewSet_destroy user c pk db = (Ok tt, db') →
            user_is_seller user = true)
  ∧ (user_is_seller user = true → truthy c = false →
     ∀ p, Product_objects db !! pk = Some p →
          ProductViewSet_destroy user c pk db
            = (Ok tt,
               {| User_objects := User_objects db;
                  Product_objects := delete pk (Product_objects db);
                  SoldProduct_objects :=
                    filter (λ kv, product kv.2 ≠ pk)
                           (SoldProduct_objects db);
                  User_retired := User_retired db;
                  Product_retired := {[pk]} ∪ Product_retired db;
                  SoldProduct_retired :=
                    dom (filter (λ kv, product kv.2 = pk)
                                (SoldProduct_objects db))
                    ∪ SoldProduct_retired db |})
          ∧ (ProductSerializer_errors data = [] →
             ProductViewSet_partial_update user c pk data db
               = (Ok (ProductSerializer_update p data),
                  with_products db
                    (<[pk := ProductSerializer_update p data]>
                       (Product_objects db))))).
Proof.
  unfold ProductViewSet_partial_update, ProductViewSet_destroy, handler_bind.
  rewrite !ProductViewSet_write_permissions by done.
  destruct (user_is_seller user) eqn:Hseller.
  - split; [done|]. split; [done|]. split; [done|].
    intros _ Hc p Hp. simpl.
    assert (ProductViewSet_get_queryset user c db !! pk = Some p) as Hq.
    { apply ProductViewSet_get_queryset_lookup. rewrite Hseller, Hc.
      intuition (auto; congruence). }
    unfold get_object. rewrite Hq. simpl. split; [done|].
    by intros ->.
  - split; [|by destruct (is_authenticated user)].
    intros _. destruct (is_authenticated user); eauto.
Qed.

(** The primary key of a new row is neither in use nor retired. *)
Lemma fresh_pk_unused {A} (table : gmap nat A) (retired : gset nat) :
  table !! unused_pk table retired = None.
Proof.
  apply not_elem_of_dom. intros Hin.
  apply (is_fresh (dom table ∪ retired)), elem_of_union. by left.
Qed.

Lemma unused_pk_not_retired {A} (table : gmap nat A) (retired : gset nat) :
  unused_pk table retired ∉ retired.
Proof.
  intros Hin. apply (is_fresh (dom table ∪ retired)), elem_of_union.
  by right.
Qed.

(** A purchase request, accepted or refused, keeps every order there is. *)
Lemma SoldProductViewSet_create_keeps_orders user data db :
  SoldProduct_objects db
  ⊆ SoldProduct_objects (SoldProductViewSet_create user data db).2.
Proof.
  destruct (SoldProductViewSet_create user data db) as [[[pk order]|e] db']
    eqn:Hrun; simpl.
  - apply SoldProductViewSet_create_Ok in Hrun
      as (vd & q & _ & _ & _ & _ & _ & _ & _ & _ & _ & -> & ->).
    apply insert_subseteq, fresh_pk_unused.
  - by apply SoldProductViewSet_create_Raise in Hrun as ->.
Qed.

(** C9, as the code has it.  No purchase request and no product update
    removes or alters an order that exists.  Deletions do remove orders:
    deleting a product removes exactly the orders that reference it,
    deleting an account removes exactly the orders it placed and the orders
    of the products it sells, and [DELETE] on an order removes that order;
    a refused deletion of a product removes nothing. *)
Theorem orders_removed_by_deletions_only user db :
  (∀ data,
     SoldProduct_objects db
     ⊆ SoldProduct_objects (SoldProductViewSet_create user data db).2)
  ∧ (∀ c pk data,
       SoldProduct_objects (ProductViewSet_partial_update user c pk data db).2
       = SoldProduct_objects db)
  ∧ (∀ c pk db',
       ProductViewSet_destroy user c pk db = (Ok tt, db') →
       ∀ k order, SoldProduct_objects db' !! k = Some order ↔
                  SoldProduct_objects db !! k = Some order
                  ∧ product order ≠ pk)
  ∧ (∀ c pk e db',
       ProductViewSet_destroy user c pk db = (Raise e, db') → db' = db)
  ∧ (∀ pk db',
       UserViewSet_destroy user pk db = (Ok tt, db') →
       ∀ k order, SoldProduct_objects db' !! k = Some order ↔
                  SoldProduct_objects db !! k = Some order
                  ∧ buyer order ≠ pk
                  ∧ seller <$> Product_objects db !! product order ≠ Some pk)
  ∧ (∀ pk db',
       SoldProductViewSet_destroy user pk db = (Ok tt, db') →
       SoldProduct_objects db' = delete pk (SoldProduct_objects db)).
Proof.
  split; [intros; apply SoldProductViewSet_create_keeps_orders|].
  split; [intros; apply ProductViewSet_partial_update_orders|].
  split; [|split; [|split]].
  - intros c pk db'.
    unfold ProductViewSet_destroy, handler_bind, get_object.
    rewrite ProductViewSet_write_permissions by done.
    destruct (user_is_seller user);
      [|by destruct (is_authenticated user)].
    simpl. destruct (ProductViewSet_get_queryset user c db !! pk); [|done].
    simpl. intros [= <-] k order. simpl.
    by rewrite map_lookup_filter_Some.
  - intros c pk e db'.
    unfold ProductViewSet_destroy, handler_bind, get_object.
    rewrite ProductViewSet_write_permissions by done.
    destruct (user_is_seller user);
      [|by destruct (is_authenticated user); intros [= _ <-]].
    simpl. destruct (ProductViewSet_get_queryset user c db !! pk);
      [done|by intros [= _ <-]].
  - intros pk db'. unfold UserViewSet_destroy, handler_bind, get_object.
    destruct user as [|upk u]; [done|]. simpl.
    destruct (UserViewSet_get_queryset _ db !! pk); [|done].
    simpl. intros [= <-] k order. simpl.
    by rewrite map_lookup_filter_Some.
  - intros pk db'. unfold SoldProductViewSet_destroy, handler_bind, get_object.
    destruct user as [|upk u]; [done|]. simpl.
    destruct (SoldProductViewSet_get_queryset _ _ db !! pk); [|done].
    simpl. by intros [= <-].
Qed.

(** The query set of the users resource: the caller's row and no other. *)
Lemma UserViewSet_get_queryset_lookup upk u db pk :
  UserViewSet_get_queryset (AuthenticatedUser upk u) db !! pk =
    if decide (pk = upk) then User_objects db !! upk else None.
Proof.
  unfold UserViewSet_get_queryset. simpl. case_decide as Hpk.
  - subst pk. destruct (User_objects db !! upk) as [row|] eqn:Hrow.
    + by apply map_lookup_filter_Some.
    + apply map_lookup_filter_None. left. done.
  - apply map_lookup_filter_None. right. intros row _ [= ?]. done.
Qed.

(** C10. For an authenticated caller whose row is in the user table, the
    query set of the users resource holds that row and nothing else.
    Reading, updating or deleting any other primary key through the resource
    ends in a 404 and leaves the database as it was, whatever the field
    validators of the serializer say; on the caller's own key the row is
    found. *)
Theorem users_resource_scoped_to_caller
    (UserSerializer_errors :
       Database → nat → UserData → list (string * ErrorDetail))
    upk u db :
  User_objects db !! upk = Some u →
  let user := AuthenticatedUser upk u in
  UserViewSet_get_queryset user db = {[ upk := u ]}
  ∧ UserViewSet_retrieve user upk db = (Ok u, db)
  ∧ ∀ pk, pk ≠ upk →
      UserViewSet_retrieve user pk db = (Raise Http404, db)
      ∧ (∀ data,
           UserViewSet_partial_update UserSerializer_errors user pk data db
           = (Raise Http404, db))
      ∧ UserViewSet_destroy user pk db = (Raise Http404, db).
Proof.
  intros Hrow user. split; [|split].
  - apply map_eq. intros pk. unfold user.
    rewrite UserViewSet_get_queryset_lookup. case_decide as Hpk.
    + subst pk. by rewrite lookup_singleton_eq.
    + by rewrite lookup_singleton_ne.
  - unfold UserViewSet_retrieve, handler_bind, get_object, user. simpl.
    rewrite UserViewSet_get_queryset_lookup, decide_True by done.
    by rewrite Hrow.
  - intros pk Hpk.
    unfold UserViewSet_retrieve, UserViewSet_partial_update,
      UserViewSet_destroy, handler_bind, get_object, user. simpl.
    rewrite UserViewSet_get_queryset_lookup, decide_False by done.
    done.
Qed.

(** * Further properties *)

(** ** The purchase transaction *)

(** The database a successful purchase leaves. *)
Lemma SoldProductViewSet_create_Ok_db user data db pk order db' :
  SoldProductViewSet_create user data db = (Ok (pk, order), db') →
  ∃ p,
    data_product_id data = Some (product order)
    ∧ data_quantity data = Some (quantity order)
    ∧ Product_objects db !! product order = Some p
    ∧ ¬ stock p < quantity order
    ∧ SoldProduct_objects db !! pk = None
    ∧ db' = {| User_objects := User_objects db;
               Product_objects :=
                 <[product order := set_stock p (stock p - quantity order)]>
                   (Product_objects db);
               SoldProduct_objects :=
                 <[pk := order]> (SoldProduct_objects db);
               User_retired := User_retired db;
               Product_retired := Product_retired db;
               SoldProduct_retired := SoldProduct_retired db |}.
Proof.
  destruct user as [|upk u];
    [by rewrite SoldProductViewSet_create_anonymous|].
  rewrite SoldProductViewSet_create_authenticated by done.
  destruct (SoldProductSerializer_is_valid db data) as [vd|] eqn:Hvalid;
    [|done].
  apply SoldProductSerializer_is_valid_Ok in Hvalid
    as (Hpid & Hrow & Hvq & _).
  destruct (vd_quantity vd) as [q|] eqn:Hq.
  - destruct (decide (stock (vd_product vd) < q)) as [Hlt|Hge].
    + unfold SoldProductViewSet_perform_create, validated_quantity,
        handler_bind. rewrite Hq. simpl. by rewrite decide_True.
    + rewrite (SoldProductViewSet_perform_create_Ok upk u vd q db) by done.
      intros [= <- <- <-]. exists (vd_product vd). simpl.
      split; [done|]. split; [congruence|]. split; [done|].
      split; [done|]. split; [apply fresh_pk_unused|done].
  - unfold SoldProductViewSet_perform_create, validated_quantity,
      handler_bind. by rewrite Hq.
Qed.

(** X1. A successful purchase writes to one product row and adds one order:
    the user table is untouched, no product appears or disappears, every
    product other than the one bought keeps its row, the one bought keeps
    everything but its stock, and the order table gains exactly the new
    order, under a key that was free. *)
Theorem purchase_writes_one_row_adds_one_order user data db pk order db' :
  SoldProductViewSet_create user data db = (Ok (pk, order), db') →
  User_objects db' = User_objects db
  ∧ dom (Product_objects db') = dom (Product_objects db)
  ∧ (∀ other, other ≠ product order →
       Product_objects db' !! other = Product_objects db !! other)
  ∧ (∃ p, Product_objects db !! product order = Some p
          ∧ Product_objects db' !! product order
            = Some (set_stock p (stock p - quantity order)))
  ∧ SoldProduct_objects db !! pk = None
  ∧ SoldProduct_objects db' = <[pk := order]> (SoldProduct_objects db)
  ∧ size (SoldProduct_objects db') = S (size (SoldProduct_objects db)).
Proof.
  intros Hrun.
  apply SoldProductViewSet_create_Ok_db in Hrun
    as (p & _ & _ & Hp & _ & Hfree & ->). simpl.
  split; [done|]. split.
  { by apply dom_insert_lookup_L. }
  split; [by intros other Hother; rewrite lookup_insert_ne|].
  split; [exists p; by rewrite lookup_insert_eq|].
  split; [done|]. split; [done|]. by apply map_size_insert_None.
Qed.

(** Adding an order under a free key adds its quantity to the account of
    its product and to no other. *)
Lemma units_sold_insert pid pk order db db' :
  SoldProduct_objects db !! pk = None →
  SoldProduct_objects db' = <[pk := order]> (SoldProduct_objects db) →
  units_sold pid db'
  = (if decide (product order = pid) then quantity order else 0)
    + units_sold pid db.
Proof.
  intros Hfree Hdb'. unfold units_sold. rewrite Hdb'.
  rewrite map_fold_insert_L; [by case_decide; lia| |done].
  intros j1 j2 o1 o2 total _ _ _. repeat case_decide; lia.
Qed.

(** One purchase request, accepted or refused, keeps the sum of a product's
    stock and the units its orders account for. *)
Lemma SoldProductViewSet_create_conserves user data db pid s :
  stock_of pid db = Some s →
  ∃ s', stock_of pid (SoldProductViewSet_create user data db).2 = Some s'
        ∧ s' + units_sold pid (SoldProductViewSet_create user data db).2
          = s + units_sold pid db.
Proof.
  intros Hs.
  destruct (SoldProductViewSet_create user data db) as [[[pk order]|e] db']
    eqn:Hrun; simpl.
  - apply SoldProductViewSet_create_Ok_db in Hrun
      as (p & _ & _ & Hp & _ & Hfree & ->).
    erewrite (units_sold_insert pid pk order db) by done.
    unfold stock_of in *. simpl.
    destruct (decide (product order = pid)) as [<-|Hne].
    + rewrite lookup_insert_eq. simpl. rewrite Hp in Hs. simpl in Hs.
      injection Hs as <-. eexists. split; [done|]. lia.
    + rewrite lookup_insert_ne by done. exists s. split; [done|]. lia.
  - apply SoldProductViewSet_create_Raise in Hrun as ->. by exists s.
Qed.

(** X2. Purchases conserve inventory: along any series of purchase
    requests, accepted or refused, a product stays in the catalogue and the
    sum of its stock and of the quantities of the orders that reference it
    stays what it was at the start. *)
Theorem purchases_conserve_inventory requests db pid s :
  stock_of pid db = Some s →
  Forall (λ db', ∃ s', stock_of pid db' = Some s'
                       ∧ s' + units_sold pid db' = s + units_sold pid db)
         (purchases requests db).
Proof.
  revert db s. induction requests as [|[user data] rest IH]; intros db s Hs.
  - constructor.
  - simpl.
    destruct (SoldProductViewSet_create_conserves user data db pid s Hs)
      as (s' & Hs' & Hsum).
    constructor; [by exists s'|].
    eapply Forall_impl; [by apply IH|]. simpl.
    intros db' (s'' & Hs'' & Hsum'). exists s''. split; [done|]. lia.
Qed.

(** X3. No overselling: from a catalogue without negative stock, at every
    point of any series of purchase requests the units of a product that
    the orders have come to account for since the start do not exceed the
    stock it had at the start. *)
Theorem purchases_never_oversell requests db pid s :
  stock_nonnegative db →
  stock_of pid db = Some s →
  Forall (λ db', units_sold pid db' - units_sold pid db ≤ s)
         (purchases requests db).
Proof.
  revert db s. induction requests as [|[user data] rest IH];
    intros db s Hinv Hs.
  - constructor.
  - simpl.
    destruct (SoldProductViewSet_create_conserves user data db pid s Hs)
      as (s' & Hs' & Hsum).
    pose proof (SoldProductViewSet_create_stock_nonnegative user data db Hinv)
      as Hinv'.
    assert (0 ≤ s') as Hpos.
    { unfold stock_of in Hs'.
      destruct (Product_objects _ !! pid) as [p|] eqn:Hp; [|done].
      simpl in Hs'. injection Hs' as <-. by apply (Hinv' pid p). }
    constructor; [lia|].
    eapply Forall_impl; [by apply (IH _ s')|]. simpl. intros db' Hle. lia.
Qed.

(** X4. The stock check of a purchase sees what the previous purchase left:
    after a purchase of [quantity order1] units of a product that had
    [stock p], a further request for [q2] units of it (authenticated, with
    a body that passes the serializer) is refused with "Only
    [stock p - quantity order1] items left" when [q2] exceeds that
    remainder, and otherwise succeeds and leaves the remainder less
    [q2]. *)
Theorem purchase_after_purchase
    user1 data1 db pk1 order1 db1 p user2 data2 vd2 q2 :
  SoldProductViewSet_create user1 data1 db = (Ok (pk1, order1), db1) →
  Product_objects db !! product order1 = Some p →
  is_authenticated user2 = true →
  SoldProductSerializer_is_valid db1 data2 = Ok vd2 →
  data_product_id data2 = Some (product order1) →
  data_quantity data2 = Some q2 →
  let left := stock p - quantity order1 in
  (left < q2 →
   SoldProductViewSet_create user2 data2 db1
   = (Raise (ValidationError
        [("quantity"%string,
          Message ("Not enough stock available. Only " +:+ pretty left
                   +:+ " items left.")%string)]), db1))
  ∧ (q2 ≤ left →
     ∃ created db2,
       SoldProductViewSet_create user2 data2 db1 = (Ok created, db2)
       ∧ stock_of (product order1) db2 = Some (left - q2)).
Proof.
  intros Hrun1 Hp Hauth Hvalid Hpid Hq2 left. subst left.
  apply SoldProductViewSet_create_Ok_db in Hrun1
    as (p' & _ & _ & Hp' & _ & _ & Hdb1).
  assert (p' = p) as -> by congruence.
  destruct user2 as [|upk u]; [done|].
  rewrite SoldProductViewSet_create_authenticated, Hvalid by done.
  apply SoldProductSerializer_is_valid_Ok in Hvalid
    as (Hpk & Hrow & Hvq & _).
  assert (vd_product_pk vd2 = product order1) as Hpk' by congruence.
  assert (vd_product vd2
          = set_stock p (stock p - quantity order1)) as Hrow'.
  { rewrite Hpk', Hdb1 in Hrow. simpl in Hrow.
    rewrite lookup_insert_eq in Hrow. congruence. }
  split.
  - intros Hlt.
    unfold SoldProductViewSet_perform_create, validated_quantity, handler_bind.
    rewrite Hvq, Hq2, Hrow'. simpl. by rewrite decide_True.
  - intros Hle.
    rewrite (SoldProductViewSet_perform_create_Ok upk u vd2 q2 db1);
      [|congruence|rewrite Hrow'; simpl; lia].
    eexists _, _. split; [done|]. unfold stock_of. simpl.
    rewrite Hpk', lookup_insert_eq, Hrow'. done.
Qed.

(** X5. [quantity] has a model default, so the serializer lets a body
    without it through; the view then reads the missing key.  Such a
    request by an authenticated caller ends in [KeyError('quantity')], not
    in an order of the default quantity, and changes nothing. *)
Theorem purchase_without_quantity_is_KeyError user data db vd :
  is_authenticated user = true →
  SoldProductSerializer_is_valid db data = Ok vd →
  data_quantity data = None →
  SoldProductViewSet_create user data db
  = (Raise (KeyError "quantity"), db).
Proof.
  intros Hauth Hvalid Hq.
  rewrite SoldProductViewSet_create_authenticated, Hvalid by done.
  apply SoldProductSerializer_is_valid_Ok in Hvalid as (_ & _ & Hvq & _).
  unfold SoldProductViewSet_perform_create, validated_quantity, handler_bind.
  by rewrite Hvq, Hq.
Qed.

(** ** The catalogue *)

Lemma ProductSerializer_is_valid_Ok data vd :
  ProductSerializer_is_valid data = Ok vd →
  ProductSerializer_create_errors data = []
  ∧ strip <$> data_name data = Some (pvd_name vd)
  ∧ strip <$> data_description data = Some (pvd_description vd)
  ∧ data_price data = Some (pvd_price vd)
  ∧ data_category data = Some (pvd_category vd)
  ∧ data_image data = Some (pvd_image vd)
  ∧ pvd_stock vd = data_stock data.
Proof.
  unfold ProductSerializer_is_valid.
  destruct (ProductSerializer_create_errors data); [|done].
  destruct (data_name data), (data_description data), (data_price data),
    (data_category data), (data_image data); try done.
  by intros [= <-].
Qed.

Lemma ProductSerializer_is_valid_Raise data e :
  ProductSerializer_is_valid data = Raise e →
  ∃ errors, e = ValidationError errors.
Proof.
  unfold ProductSerializer_is_valid.
  destruct (ProductSerializer_create_errors data);
    destruct (data_name data), (data_description data), (data_price data),
      (data_category data), (data_image data); try done;
    intros [= <-]; eauto.
Qed.

(** A stock that passed the serializer is not negative. *)
Lemma validated_stock_nonnegative (v : option Z) rest :
  validate_opt "stock" (λ n, bool_decide (PositiveIntegerField_min ≤ n))
    "min_value" v ++ rest = [] →
  ∀ n, v = Some n → 0 ≤ n.
Proof.
  intros Herr n ->. simpl in Herr. case_bool_decide as Hn; [done|done].
Qed.

Lemma ProductSerializer_errors_stock data n :
  ProductSerializer_errors data = [] → data_stock data = Some n → 0 ≤ n.
Proof.
  unfold ProductSerializer_errors. intros Herr.
  do 4 (apply app_nil in Herr as [_ Herr]).
  intros Hn. by apply (validated_stock_nonnegative _ _ Herr).
Qed.

Lemma ProductSerializer_create_errors_nil data :
  ProductSerializer_create_errors data = [] →
  ProductSerializer_errors data = [].
Proof.
  unfold ProductSerializer_create_errors. intros Herr.
  by do 5 (apply app_nil in Herr as [_ Herr]).
Qed.

(** A text that passed a [CharField] which refuses blanks is, once
    trimmed, not empty and within the length allowed. *)
Lemma CharField_errors_nil field max_length s :
  CharField_errors field false max_length (Some s) = [] →
  strip s ≠ EmptyString
  ∧ ∀ n, max_length = Some n → (len (strip s) ≤ n)%nat.
Proof.
  unfold CharField_errors, CharField_codes. simpl.
  destruct (strip s) as [|a rest] eqn:Hs; simpl; [done|].
  intros Herr. split; [done|]. intros n ->.
  case_bool_decide; [done|done].
Qed.

(** What [create] does for a seller, by the verdict of the serializer. *)
Lemma ProductViewSet_create_seller str upk u data db :
  is_seller u = true →
  ProductViewSet_create str (AuthenticatedUser upk u) data db =
    match ProductSerializer_is_valid data with
    | Ok vd =>
        let id := unused_pk (Product_objects db) (Product_retired db) in
        let instance :=
          {| name := pvd_name vd; description := pvd_description vd;
             price := pvd_price vd; category := pvd_category vd;
             image := pvd_image vd;
             stock := default Product_stock_default (pvd_stock vd);
             seller := upk |} in
        (Ok {| status_code := HTTP_201_CREATED;
               payload := Data (id, instance) |},
         with_products db (<[id := instance]> (Product_objects db)))
    | Raise e =>
        (Ok {| status_code := HTTP_400_BAD_REQUEST;
               payload := Error (str e) |}, db)
    end.
Proof.
  intros Hseller.
  unfold ProductViewSet_create, handler_bind, try_except.
  rewrite ProductViewSet_write_permissions by done. simpl. rewrite Hseller.
  unfold lift_result. by destruct (ProductSerializer_is_valid data).
Qed.

(** X7. Creating a product binds it to the caller.  A caller who is not an
    authenticated seller is refused and nothing is created.  A product that
    is created has the caller as its seller (no field of the body can name
    another), carries the fields of the body, its name and description
    trimmed of surrounding white space, has a name that is not empty and
    at most 200 characters long, has stock 0 when the body gives none and
    never a negative stock, and is stored under a key that was free, every
    other row of the database staying as it was. *)
Theorem product_create_binds_caller str user data db :
  (user_is_seller user = false →
     ∃ e, (e = NotAuthenticated ∨ e = PermissionDenied)
          ∧ ProductViewSet_create str user data db = (Raise e, db))
  ∧ (∀ pk p db',
       ProductViewSet_create str user data db
       = (Ok {| status_code := HTTP_201_CREATED; payload := Data (pk, p) |},
          db') →
       request_user_id user = Some (seller p)
       ∧ user_is_seller user = true
       ∧ strip <$> data_name data = Some (name p)
       ∧ name p ≠ EmptyString
       ∧ (len (name p) ≤ 200)%nat
       ∧ strip <$> data_description data = Some (description p)
       ∧ data_price data = Some (price p)
       ∧ data_category data = Some (category p)
       ∧ stock p = default 0 (data_stock data)
       ∧ 0 ≤ stock p
       ∧ Product_objects db !! pk = None
       ∧ db' = with_products db (<[pk := p]> (Product_objects db))).
Proof.
  split.
  - intros Hseller. unfold ProductViewSet_create, handler_bind.
    rewrite ProductViewSet_write_permissions by done. rewrite Hseller.
    destruct (is_authenticated user); eauto.
  - intros pk p db'. destruct user as [|upk u]; [done|].
    destruct (is_seller u) eqn:Hseller.
    + rewrite ProductViewSet_create_seller by done.
      destruct (ProductSerializer_is_valid data) as [vd|e] eqn:Hvalid;
        [|done].
      apply ProductSerializer_is_valid_Ok in Hvalid
        as (Herr & Hn & Hd & Hx & Hc & _ & Hs).
      apply ProductSerializer_create_errors_nil in Herr.
      simpl. intros [= <- <- <-]. simpl. rewrite Hs.
      split; [done|]. split; [done|]. split; [done|].
      assert (pvd_name vd ≠ EmptyString ∧ (len (pvd_name vd) ≤ 200)%nat)
        as [Hblank Hlen].
      { destruct (data_name data) as [n|] eqn:Hname; [|done].
        injection Hn as <-.
        unfold ProductSerializer_errors in Herr.
        apply app_nil in Herr as [Herr _]. rewrite Hname in Herr.
        apply CharField_errors_nil in Herr as [? Hmax]. split; [done|].
        by apply Hmax. }
      split; [done|]. split; [done|]. split; [done|]. split; [done|].
      split; [done|]. split; [done|]. split.
      * destruct (data_stock data) as [n|] eqn:Hn'; simpl; [|done].
        by apply (ProductSerializer_errors_stock data).
      * split; [apply fresh_pk_unused|done].
    + unfold ProductViewSet_create, handler_bind.
      rewrite ProductViewSet_write_permissions by done. simpl.
      by rewrite Hseller.
Qed.

(** X8. Past the permission check, creating a product never raises: the
    view answers 201 with the new product, or 400 with the text of what went
    wrong, and in the second case nothing was written.  A body the
    serializer turns down (for a name of more than 200 characters, say, or
    a stock outside the range of the backend) is answered with 400. *)
Theorem product_create_answers_400 str user data db :
  user_is_seller user = true →
  (∃ response,
     (ProductViewSet_create str user data db).1 = Ok response
     ∧ (status_code response = HTTP_201_CREATED
        ∨ status_code response = HTTP_400_BAD_REQUEST
          ∧ (ProductViewSet_create str user data db).2 = db))
  ∧ (∀ errors,
       ProductSerializer_is_valid data = Raise (ValidationError errors) →
       ProductViewSet_create str user data db
       = (Ok {| status_code := HTTP_400_BAD_REQUEST;
                payload := Error (str (ValidationError errors)) |}, db)).
Proof.
  intros Hseller. destruct user as [|upk u]; [done|]. simpl in Hseller.
  rewrite ProductViewSet_create_seller by done.
  destruct (ProductSerializer_is_valid data) as [vd|e]; simpl.
  - split; [eexists; split; [done|by left]|done].
  - split; [eexists; split; [done|by right]|]. by intros errors [= ->].
Qed.

(** X9. A product that sells out leaves the shop window: once a purchase
    has taken the whole stock, the product is in no listing of a caller who
    is not a seller, whatever the category filter, and its detail page is a
    404 for them, while a seller still gets it, with stock 0. *)
Theorem sold_out_product_hidden_from_buyers
    user data db pk order db' p viewer c :
  SoldProductViewSet_create user data db = (Ok (pk, order), db') →
  Product_objects db !! product order = Some p →
  quantity order = stock p →
  (user_is_seller viewer = false →
     ProductViewSet_get_queryset viewer c db' !! product order = None
     ∧ ProductViewSet_retrieve viewer c (product order) db'
       = (Raise Http404, db'))
  ∧ (user_is_seller viewer = true →
     ProductViewSet_retrieve viewer None (product order) db'
     = (Ok (set_stock p 0), db')).
Proof.
  intros Hrun Hp Hall.
  apply SoldProductViewSet_create_Ok_db in Hrun
    as (p' & _ & _ & Hp' & _ & _ & Hdb').
  assert (p' = p) as -> by congruence.
  assert (Product_objects db' !! product order = Some (set_stock p 0))
    as Hrow.
  { rewrite Hdb'. simpl. rewrite lookup_insert_eq. do 2 f_equal. lia. }
  split.
  - intros Hviewer.
    assert (ProductViewSet_get_queryset viewer c db' !! product order = None)
      as Hnone.
    { apply eq_None_not_Some. intros [row Hin].
      apply ProductViewSet_get_queryset_lookup in Hin as (Hrow' & Hshow & _).
      rewrite Hrow in Hrow'. injection Hrow' as <-. simpl in Hshow.
      destruct Hshow as [?|?]; [congruence|lia]. }
    split; [done|].
    unfold ProductViewSet_retrieve, handler_bind, get_object. simpl.
    by rewrite Hnone.
  - intros Hviewer.
    assert (ProductViewSet_get_queryset viewer None db' !! product order
            = Some (set_stock p 0)) as Hin.
    { apply ProductViewSet_get_queryset_lookup.
      split; [done|]. split; [by left|]. simpl. discriminate. }
    unfold ProductViewSet_retrieve, handler_bind, get_object. simpl.
    by rewrite Hin.
Qed.

(** X10. The category filter of the query string also applies to writes.
    A seller's [PATCH] or [DELETE] of a product that exists, sent with a
    [category] parameter other than the product's category, is a 404 and
    changes nothing; so is one on a key the catalogue does not have. *)
Theorem product_write_outside_queryset_is_404 user c pk data db :
  user_is_seller user = true →
  (Product_objects db !! pk = None
   ∨ ∃ p, Product_objects db !! pk = Some p
          ∧ truthy c = true ∧ Some (category p) ≠ c) →
  ProductViewSet_partial_update user c pk data db = (Raise Http404, db)
  ∧ ProductViewSet_destroy user c pk db = (Raise Http404, db).
Proof.
  intros Hseller Hout.
  assert (ProductViewSet_get_queryset user c db !! pk = None) as Hnone.
  { apply eq_None_not_Some. intros [row Hin].
    apply ProductViewSet_get_queryset_lookup in Hin as (Hrow & _ & Hcat).
    destruct Hout as [Hgone|(p & Hp & Hc & Hne)]; [congruence|].
    assert (row = p) as -> by congruence. auto. }
  unfold ProductViewSet_partial_update, ProductViewSet_destroy, handler_bind,
    get_object.
  rewrite !ProductViewSet_write_permissions by done. rewrite Hseller. simpl.
  by rewrite Hnone.
Qed.

(** X11. Updating a product never moves it to another seller and never
    writes anything but its own row.  A [PATCH] that succeeds found the row,
    had a body without errors, and stored the row with the fields of the
    body replaced, name and description as trimmed, and the seller as
    before; users, orders and the other products are as they were.  A
    [PATCH] that raises wrote nothing, and a body with an error (a negative
    stock, an unknown category, a name of white space alone) always
    raises. *)
Theorem product_update_keeps_seller user c pk data db :
  (∀ p' db',
     ProductViewSet_partial_update user c pk data db = (Ok p', db') →
     ∃ p, Product_objects db !! pk = Some p
          ∧ ProductSerializer_errors data = []
          ∧ p' = ProductSerializer_update p data
          ∧ seller p' = seller p
          ∧ db' = with_products db (<[pk := p']> (Product_objects db)))
  ∧ (∀ e db',
       ProductViewSet_partial_update user c pk data db = (Raise e, db') →
       db' = db)
  ∧ (ProductSerializer_errors data ≠ [] →
     ∃ e, ProductViewSet_partial_update user c pk data db = (Raise e, db)).
Proof.
  unfold ProductViewSet_partial_update, handler_bind, get_object.
  rewrite ProductViewSet_write_permissions by done.
  destruct (user_is_seller user).
  - simpl.
    destruct (ProductViewSet_get_queryset user c db !! pk) as [p|] eqn:Hin;
      simpl.
    + apply ProductViewSet_get_queryset_lookup in Hin as (Hp & _).
      destruct (ProductSerializer_errors data) as [|err errs] eqn:Herr;
        simpl.
      * split; [|split; [done|done]].
        intros p' db' [= <- <-]. exists p. done.
      * split; [done|]. split; [by intros e db' [= _ <-]|]. eauto.
    + split; [done|]. split; [by intros e db' [= _ <-]|]. eauto.
  - destruct (is_authenticated user);
      (split; [done|]; split; [by intros e db' [= _ <-]|]; eauto).
Qed.

(** ** The order table *)

(** Membership in the query set of the orders resource. *)
Lemma SoldProductViewSet_get_queryset_lookup action user db k o :
  SoldProductViewSet_get_queryset action user db !! k = Some o ↔
    SoldProduct_objects db !! k = Some o
    ∧ (is_read action = true
       ∨ match user with
         | AnonymousUser => False
         | AuthenticatedUser upk u =>
             if is_seller u
             then seller <$> Product_objects db !! product o = Some upk
             else buyer o = upk
         end).
Proof.
  unfold SoldProductViewSet_get_queryset.
  destruct (is_read action).
  - intuition auto.
  - destruct user as [|upk u].
    + rewrite lookup_empty. intuition (auto; congruence).
    + destruct (is_seller u); rewrite map_lookup_filter_Some; simpl;
        intuition (auto; congruence).
Qed.

(** X12. Who sees which orders.  Listing and reading orders is open to
    everyone, signed in or not, and shows the whole order table, shipping
    addresses included.  For every other action the orders in reach are,
    for a seller, exactly the orders of the products that seller sells
    (their own purchases from other sellers are not among them); for any
    other authenticated caller, exactly the orders they placed; for an
    anonymous caller, none. *)
Theorem order_queryset_scope action user db :
  SoldProductViewSet_list user db = (Ok (SoldProduct_objects db), db)
  ∧ (∀ k, SoldProductViewSet_retrieve user k db
          = (match SoldProduct_objects db !! k with
             | Some o => Ok o
             | None => Raise Http404
             end, db))
  ∧ (is_read action = false →
     ∀ k o,
       SoldProductViewSet_get_queryset action user db !! k = Some o ↔
         SoldProduct_objects db !! k = Some o
         ∧ match user with
           | AnonymousUser => False
           | AuthenticatedUser upk u =>
               if is_seller u
               then seller <$> Product_objects db !! product o = Some upk
               else buyer o = upk
           end).
Proof.
  split; [done|]. split.
  - intros k.
    unfold SoldProductViewSet_retrieve, SoldProductViewSet_get_queryset,
      handler_bind, get_object.
    assert (is_read retrieve = true) as -> by done. simpl.
    by destruct (SoldProduct_objects db !! k).
  - intros Hwrite k o. rewrite SoldProductViewSet_get_queryset_lookup.
    rewrite Hwrite. intuition (auto; congruence).
Qed.

(** X13. Deleting an order does not put its units back: whatever the
    outcome, [DELETE] on an order leaves the product table, stock included,
    and the user table as they were.  It succeeds exactly on the orders in
    the caller's reach, removing that order alone; on any other key the
    caller is refused or gets a 404 and nothing changes. *)
Theorem order_delete_does_not_restock user pk db :
  Product_objects (SoldProductViewSet_destroy user pk db).2
  = Product_objects db
  ∧ User_objects (SoldProductViewSet_destroy user pk db).2 = User_objects db
  ∧ (∀ o,
       SoldProductViewSet_get_queryset destroy user db !! pk = Some o →
       SoldProductViewSet_destroy user pk db
       = (Ok tt,
          {| User_objects := User_objects db;
             Product_objects := Product_objects db;
             SoldProduct_objects := delete pk (SoldProduct_objects db);
             User_retired := User_retired db;
             Product_retired := Product_retired db;
             SoldProduct_retired := {[pk]} ∪ SoldProduct_retired db |}))
  ∧ (SoldProductViewSet_get_queryset destroy user db !! pk = None →
     ∃ e, (e = NotAuthenticated ∨ e = Http404)
          ∧ SoldProductViewSet_destroy user pk db = (Raise e, db)).
Proof.
  unfold SoldProductViewSet_destroy, handler_bind, get_object.
  destruct user as [|upk u]; simpl.
  - split; [done|]. split; [done|]. split; [done|]. eauto.
  - destruct (SoldProductViewSet_get_queryset destroy _ db !! pk); simpl.
    + split; [done|]. split; [done|]. split; [done|]. done.
    + split; [done|]. split; [done|]. split; [done|].
      intros _. exists Http404. split; [by right|done].
Qed.

(** X14. An order can be rewritten after the purchase.  A [PATCH] by a
    caller who has the order in reach, with a body without errors, stores
    the order with the fields of the body replaced: the total price and
    the quantity are whatever the body says, the shipping address is the
    body's, trimmed.  The buyer never changes, and
    no [PATCH] on an order, accepted or not, touches the product table, so
    a changed quantity moves no stock.  A [PATCH] that raises wrote
    nothing. *)
Theorem order_patch_rewrites_order_only user pk data db :
  Product_objects (SoldProductViewSet_partial_update user pk data db).2
  = Product_objects db
  ∧ User_objects (SoldProductViewSet_partial_update user pk data db).2
    = User_objects db
  ∧ (∀ o,
       SoldProductViewSet_get_queryset partial_update user db !! pk = Some o →
       SoldProductSerializer_partial_errors db data = [] →
       let o' := SoldProductSerializer_update o data in
       SoldProductViewSet_partial_update user pk data db
       = (Ok o', with_sold_products db (<[pk := o']> (SoldProduct_objects db)))
       ∧ buyer o' = buyer o
       ∧ (∀ t, data_total_price data = Some t → total_price o' = t)
       ∧ (∀ q, data_quantity data = Some q → quantity o' = q)
       ∧ (∀ a, data_shipping_address data = Some a →
               shipping_address o' = strip a ∧ strip a ≠ EmptyString))
  ∧ (∀ e db',
       SoldProductViewSet_partial_update user pk data db = (Raise e, db') →
       db' = db).
Proof.
  unfold SoldProductViewSet_partial_update, handler_bind, get_object.
  destruct user as [|upk u]; simpl.
  - split; [done|]. split; [done|]. split; [done|].
    by intros e db' [= _ <-].
  - destruct (SoldProductViewSet_get_queryset partial_update _ db !! pk)
      as [o|]; simpl.
    + destruct (SoldProductSerializer_partial_errors db data) eqn:Herr; simpl.
      * split; [done|]. split; [done|]. split; [|done].
        intros o0 [= <-] _. simpl. split; [done|]. split; [done|].
        split; [by intros t ->|]. split; [by intros q ->|].
        intros a Ha. rewrite Ha. split; [done|].
        unfold SoldProductSerializer_partial_errors in Herr.
        do 4 (apply app_nil in Herr as [_ Herr]). rewrite Ha in Herr.
        by apply CharField_errors_nil in Herr as [? _].
      * split; [done|]. split; [done|]. split; [done|].
        by intros e' db' [= _ <-].
    + split; [done|]. split; [done|]. split; [done|].
      by intros e db' [= _ <-].
Qed.

(** ** Accounts and sessions *)

(** X15. An account can make itself a seller.  [is_seller] is a writable
    field of [UserSerializer], and the users resource lets the caller
    update their own row: a [PATCH] of one's own account that the field
    validators accept stores the body's fields, the texts trimmed, and
    when the body sets
    [is_seller] the account, if active, passes the permission check of
    every catalogue action from its next request on. *)
Theorem account_can_make_itself_seller
    (UserSerializer_errors :
       Database → nat → UserData → list (string * ErrorDetail))
    upk u data db :
  User_objects db !! upk = Some u →
  UserSerializer_errors db upk data = [] →
  User_own_field_errors (data_phone_number data) (data_address data) = [] →
  let u' := UserSerializer_update u data in
  let db' := with_users db (<[upk := u']> (User_objects db)) in
  UserViewSet_partial_update UserSerializer_errors (AuthenticatedUser upk u)
    upk data db = (Ok u', db')
  ∧ (data_is_seller data = Some true → is_active u = true →
     user_is_seller (request_user db' (Some upk)) = true
     ∧ ∀ action,
         check_permissions (ProductViewSet_get_permissions action)
           (request_user db' (Some upk)) db' = (Ok tt, db')).
Proof.
  intros Hrow Herr Hown u' db'. split.
  - unfold UserViewSet_partial_update, handler_bind, get_object. simpl.
    rewrite UserViewSet_get_queryset_lookup, decide_True by done.
    rewrite Hrow. simpl. by rewrite Herr, Hown.
  - intros Hseller Hactive.
    assert (request_user db' (Some upk) = AuthenticatedUser upk u') as ->.
    { unfold request_user, db'. simpl. rewrite lookup_insert_eq.
      unfold u'. simpl. by rewrite Hactive. }
    split; [unfold u'; simpl; by rewrite Hseller|]. intros action.
    unfold ProductViewSet_get_permissions.
    destruct (is_read action); simpl; [done|]. by rewrite Hseller.
Qed.


(** X17. Logging in.  The view never raises.  It writes no product and no
    order, and neither adds nor removes an account; what Django's [login]
    records on the account that logs in is its [last_login], which is not
    among the columns of the rows here.  It answers 200 only when both
    credentials are non-empty, [authenticate] returned an account for them
    and that account is active, and only then does the session change
    hands, to that account; every other answer is a 400 or a 401 and leaves
    the session whose it was.  An empty or missing user name or password
    is answered with 400 whatever [authenticate] would say, and then
    nothing at all is written. *)
Theorem login_outcome
    (authenticate : Database → string → string → option (nat * User))
    user data db :
  Product_objects (UserViewSet_login authenticate user data db).2
  = Product_objects db
  ∧ SoldProduct_objects (UserViewSet_login authenticate user data db).2
    = SoldProduct_objects db
  ∧ dom (User_objects (UserViewSet_login authenticate user data db).2)
    = dom (User_objects db)
  ∧ (∃ response session',
       (UserViewSet_login authenticate user data db).1
       = Ok (response, session')
       ∧ (status_code response = HTTP_200_OK →
          ∃ name_ password_ pk u,
            login_username data = Some name_ ∧ name_ ≠ EmptyString
            ∧ login_password data = Some password_
            ∧ password_ ≠ EmptyString
            ∧ authenticate db name_ password_ = Some (pk, u)
            ∧ is_active u = true
            ∧ session' = AuthenticatedUser pk u
            ∧ payload response = Data (UserSerializer_data pk u))
       ∧ (status_code response ≠ HTTP_200_OK →
          session' = user
          ∧ (status_code response = HTTP_400_BAD_REQUEST
             ∨ status_code response = HTTP_401_UNAUTHORIZED)))
  ∧ (truthy (login_username data) = false
     ∨ truthy (login_password data) = false →
     UserViewSet_login authenticate user data db
     = (Ok ({| status_code := HTTP_400_BAD_REQUEST;
               payload :=
                 Error "Please provide both username and password" |},
            user), db)).
Proof.
  unfold UserViewSet_login, handler_bind. simpl.
  destruct (login_username data) as [[|a name_]|] eqn:Hname; simpl;
    try (do 3 (split; [done|]); split; [|done];
         eexists _, _; split; [done|]; split; [done|]; auto).
  destruct (login_password data) as [[|b password_]|] eqn:Hpass; simpl;
    try (do 3 (split; [done|]); split; [|done];
         eexists _, _; split; [done|]; split; [done|]; auto).
  destruct (authenticate db (String a name_) (String b password_))
    as [[pk u]|] eqn:Hauth; simpl.
  - destruct (is_active u) eqn:Hactive; simpl.
    + do 3 (split; [done|]). split; [|by intros [?|?]].
      eexists _, _. split; [done|]. split; [|done].
      intros _. exists (String a name_), (String b password_), pk, u.
      done.
    + do 3 (split; [done|]). split; [|by intros [?|?]].
      eexists _, _; split; [done|]; split; [done|]; auto.
  - do 3 (split; [done|]). split; [|by intros [?|?]].
    eexists _, _; split; [done|]; split; [done|]; auto.
Qed.

(** X18. [current_user] and [logout] need a session.  For an authenticated
    caller the first answers with the caller's own representation and the
    second answers 204 and leaves the session anonymous; neither writes.
    An anonymous caller is refused by both, so a second [logout] in a row
    is refused rather than answered 204 again. *)
Theorem session_actions_need_a_session user db :
  (∀ pk u, user = AuthenticatedUser pk u →
     UserViewSet_current_user user db
     = (Ok {| status_code := HTTP_200_OK;
              payload := Data (UserSerializer_data pk u) |}, db)
     ∧ UserViewSet_logout user db
       = (Ok ({| status_code := HTTP_204_NO_CONTENT; payload := Empty |},
              AnonymousUser), db))
  ∧ (user = AnonymousUser →
     UserViewSet_current_user user db = (Raise NotAuthenticated, db)
     ∧ UserViewSet_logout user db = (Raise NotAuthenticated, db))
  ∧ (∀ response session' db',
       UserViewSet_logout user db = (Ok (response, session'), db') →
       UserViewSet_logout session' db' = (Raise NotAuthenticated, db')).
Proof.
  split; [by intros pk u ->|]. split; [by intros ->|].
  intros response session' db'. destruct user as [|pk u]; [done|].
  by intros [= _ <- <-].
Qed.

(** ** The API as a whole *)

(** What each writing request can do to the database. *)

Lemma SoldProductViewSet_partial_update_db user pk data db :
  (SoldProductViewSet_partial_update user pk data db).2 = db
  ∨ ∃ o, SoldProduct_objects db !! pk = Some o
         ∧ SoldProductSerializer_partial_errors db data = []
         ∧ (SoldProductViewSet_partial_update user pk data db).2
           = with_sold_products db
               (<[pk := SoldProductSerializer_update o data]>
                  (SoldProduct_objects db)).
Proof.
  unfold SoldProductViewSet_partial_update, handler_bind, get_object.
  destruct user as [|upk u]; simpl; [by left|].
  destruct (SoldProductViewSet_get_queryset partial_update _ db !! pk)
    as [o|] eqn:Hin; simpl; [|by left].
  apply SoldProductViewSet_get_queryset_lookup in Hin as [Ho _].
  destruct (SoldProductSerializer_partial_errors db data) eqn:Herr; simpl;
    [|by left].
  right. by exists o.
Qed.

Lemma SoldProductViewSet_destroy_db user pk db :
  (SoldProductViewSet_destroy user pk db).2 = db
  ∨ (SoldProductViewSet_destroy user pk db).2
    = {| User_objects := User_objects db;
         Product_objects := Product_objects db;
         SoldProduct_objects := delete pk (SoldProduct_objects db);
         User_retired := User_retired db;
         Product_retired := Product_retired db;
         SoldProduct_retired := {[pk]} ∪ SoldProduct_retired db |}.
Proof.
  unfold SoldProductViewSet_destroy, handler_bind, get_object.
  destruct user as [|upk u]; simpl; [by left|].
  destruct (SoldProductViewSet_get_queryset destroy _ db !! pk); simpl;
    [by right|by left].
Qed.

Lemma ProductViewSet_create_db str user data db :
  (ProductViewSet_create str user data db).2 = db
  ∨ ∃ upk p,
      request_user_id user = Some upk
      ∧ seller p = upk
      ∧ 0 ≤ stock p
      ∧ Product_objects db
          !! unused_pk (Product_objects db) (Product_retired db) = None
      ∧ (ProductViewSet_create str user data db).2
        = with_products db
            (<[unused_pk (Product_objects db) (Product_retired db) := p]>
               (Product_objects db)).
Proof.
  destruct user as [|upk u]; [by left|].
  destruct (is_seller u) eqn:Hseller.
  - rewrite ProductViewSet_create_seller by done.
    destruct (ProductSerializer_is_valid data) as [vd|e] eqn:Hvalid;
      [|by left].
    right.
    exists upk,
      {| name := pvd_name vd; description := pvd_description vd;
         price := pvd_price vd; category := pvd_category vd;
         image := pvd_image vd;
         stock := default Product_stock_default (pvd_stock vd);
         seller := upk |}.
    simpl. split; [done|]. split; [done|].
    split; [|split; [apply fresh_pk_unused|done]].
    apply ProductSerializer_is_valid_Ok in Hvalid
      as (Herr & _ & _ & _ & _ & _ & Hs).
    apply ProductSerializer_create_errors_nil in Herr. rewrite Hs.
    destruct (data_stock data) as [n|] eqn:Hn; simpl; [|done].
    by apply (ProductSerializer_errors_stock data).
  - left. unfold ProductViewSet_create, handler_bind.
    rewrite ProductViewSet_write_permissions by done. simpl.
    by rewrite Hseller.
Qed.

Lemma ProductViewSet_partial_update_db user c pk data db :
  (ProductViewSet_partial_update user c pk data db).2 = db
  ∨ ∃ p, Product_objects db !! pk = Some p
         ∧ ProductSerializer_errors data = []
         ∧ (ProductViewSet_partial_update user c pk data db).2
           = with_products db
               (<[pk := ProductSerializer_update p data]> (Product_objects db)).
Proof.
  unfold ProductViewSet_partial_update, handler_bind, get_object.
  rewrite ProductViewSet_write_permissions by done.
  destruct (user_is_seller user);
    [|by left; destruct (is_authenticated user)].
  simpl.
  destruct (ProductViewSet_get_queryset user c db !! pk) as [p|] eqn:Hin;
    simpl; [|by left].
  apply ProductViewSet_get_queryset_lookup in Hin as (Hp & _).
  destruct (ProductSerializer_errors data) eqn:Herr; simpl; [|by left].
  right. by exists p.
Qed.

Lemma ProductViewSet_destroy_db user c pk db :
  (ProductViewSet_destroy user c pk db).2 = db
  ∨ (ProductViewSet_destroy user c pk db).2
    = {| User_objects := User_objects db;
         Product_objects := delete pk (Product_objects db);
         SoldProduct_objects :=
           filter (λ kv, product kv.2 ≠ pk) (SoldProduct_objects db);
         User_retired := User_retired db;
         Product_retired := {[pk]} ∪ Product_retired db;
         SoldProduct_retired :=
           dom (filter (λ kv, product kv.2 = pk) (SoldProduct_objects db))
           ∪ SoldProduct_retired db |}.
Proof.
  unfold ProductViewSet_destroy, handler_bind, get_object.
  rewrite ProductViewSet_write_permissions by done.
  destruct (user_is_seller user);
    [|by left; destruct (is_authenticated user)].
  simpl. destruct (ProductViewSet_get_queryset user c db !! pk); simpl;
    [by right|by left].
Qed.

Lemma UserViewSet_partial_update_db
    (UserSerializer_errors :
       Database → nat → UserData → list (string * ErrorDetail))
    user pk data db :
  (UserViewSet_partial_update UserSerializer_errors user pk data db).2 = db
  ∨ ∃ u, User_objects db !! pk = Some u
         ∧ (UserViewSet_partial_update UserSerializer_errors user pk data db).2
           = with_users db
               (<[pk := UserSerializer_update u data]> (User_objects db)).
Proof.
  unfold UserViewSet_partial_update, handler_bind, get_object.
  destruct user as [|upk u]; simpl; [by left|].
  rewrite UserViewSet_get_queryset_lookup. case_decide as Hpk; [|by left].
  subst pk. destruct (User_objects db !! upk) as [row|] eqn:Hrow; simpl;
    [|by left].
  destruct (UserSerializer_errors db upk data ++ _); simpl; [|by left].
  right. by exists row.
Qed.

Lemma UserViewSet_destroy_db user pk db :
  (UserViewSet_destroy user pk db).2 = db
  ∨ (UserViewSet_destroy user pk db).2
    = {| User_objects := delete pk (User_objects db);
         Product_objects :=
           filter (λ kv, seller kv.2 ≠ pk) (Product_objects db);
         SoldProduct_objects :=
           filter (λ kv, buyer kv.2 ≠ pk
                         ∧ seller <$> Product_objects db !! product kv.2
                           ≠ Some pk)
                  (SoldProduct_objects db);
         User_retired := {[pk]} ∪ User_retired db;
         Product_retired :=
           dom (filter (λ kv, seller kv.2 = pk) (Product_objects db))
           ∪ Product_retired db;
         SoldProduct_retired :=
           dom (filter (λ kv, ¬ (buyer kv.2 ≠ pk
                                 ∧ seller <$> Product_objects db
                                              !! product kv.2
                                   ≠ Some pk))
                       (SoldProduct_objects db))
           ∪ SoldProduct_retired db |}.
Proof.
  unfold UserViewSet_destroy, handler_bind, get_object.
  destruct user as [|upk u]; simpl; [by left|].
  destruct (UserViewSet_get_queryset _ db !! pk); simpl; [by right|by left].
Qed.

Lemma UserViewSet_register_db
    (AbstractUser_errors :
       Database → UserCreateData → list (string * ErrorDetail))
    (normalize_username normalize_email : string → string) user data db :
  (UserViewSet_register AbstractUser_errors normalize_username
     normalize_email user data db).2 = db
  ∨ ∃ u, (UserViewSet_register AbstractUser_errors normalize_username
            normalize_email user data db).2
         = with_users db
             (<[unused_pk (User_objects db) (User_retired db) := u]>
                (User_objects db)).
Proof.
  unfold UserViewSet_register, handler_bind. simpl.
  destruct (UserCreateSerializer_errors AbstractUser_errors db data);
    [|by left].
  destruct (reg_username data); [|by left].
  destruct (reg_password data); [|by left].
  right. by eexists.
Qed.

(** The row the session middleware hands to a view is in the user table. *)
Lemma request_user_row db session pk u :
  request_user db session = AuthenticatedUser pk u →
  User_objects db !! pk = Some u.
Proof.
  unfold request_user. destruct session as [spk|]; [|done].
  destruct (User_objects db !! spk) as [row|] eqn:Hrow; [|done].
  destruct (is_active row); [|done]. by intros [= <- <-].
Qed.

Lemma request_user_id_row db session pk :
  request_user_id (request_user db session) = Some pk →
  is_Some (User_objects db !! pk).
Proof.
  destruct (request_user db session) as [|upk u] eqn:Huser; [done|].
  intros [= <-]. apply request_user_row in Huser. by eexists.
Qed.

(** The stock a product update stores is not negative when the one it
    replaces was not. *)
Lemma ProductSerializer_update_stock p data :
  ProductSerializer_errors data = [] →
  0 ≤ stock p →
  0 ≤ stock (ProductSerializer_update p data).
Proof.
  intros Herr Hp. simpl.
  destruct (data_stock data) as [n|] eqn:Hn; simpl; [|done].
  by apply (ProductSerializer_errors_stock data).
Qed.

Section API_invariants.
Variable str : Exception → string.
Variable UserSerializer_errors :
  Database → nat → UserData → list (string * ErrorDetail).
Variable AbstractUser_errors :
  Database → UserCreateData → list (string * ErrorDetail).
Variable normalize_username : string → string.
Variable normalize_email : string → string.

Local Notation "'handle_'" :=
  (handle str UserSerializer_errors AbstractUser_errors normalize_username
     normalize_email) (only parsing).
Local Notation "'run_'" :=
  (run str UserSerializer_errors AbstractUser_errors normalize_username
     normalize_email) (only parsing).

Lemma handle_stock_nonnegative session request db :
  stock_nonnegative db → stock_nonnegative (handle_ session request db).
Proof.
  intros Hinv. unfold stock_nonnegative in *.
  destruct request as [data|pk data|pk|data|c pk data|c pk|pk data|pk|data];
    simpl.
  - by apply SoldProductViewSet_create_stock_nonnegative.
  - destruct (SoldProductViewSet_partial_update_db
                (request_user db session) pk data db)
      as [->|(o & _ & _ & ->)]; done.
  - destruct (SoldProductViewSet_destroy_db (request_user db session) pk db)
      as [->| ->]; done.
  - destruct (ProductViewSet_create_db str (request_user db session) data db)
      as [->|(upk & p & _ & _ & Hs & _ & ->)]; [done|]. simpl.
    by apply map_Forall_insert_2.
  - destruct (ProductViewSet_partial_update_db
                (request_user db session) c pk data db)
      as [->|(p & Hp & Herr & ->)]; [done|]. simpl.
    apply map_Forall_insert_2; [|done].
    apply ProductSerializer_update_stock; [done|]. by apply (Hinv pk p).
  - destruct (ProductViewSet_destroy_db (request_user db session) c pk db)
      as [->| ->]; [done|]. simpl. by apply map_Forall_delete.
  - destruct (UserViewSet_partial_update_db UserSerializer_errors
                (request_user db session) pk data db)
      as [->|(u & _ & ->)]; done.
  - destruct (UserViewSet_destroy_db (request_user db session) pk db)
      as [->| ->]; [done|]. simpl.
    intros k p Hk. apply map_lookup_filter_Some in Hk as [Hk _].
    by apply (Hinv k p).
  - destruct (UserViewSet_register_db AbstractUser_errors normalize_username
                normalize_email (request_user db session) data db)
      as [->|(u & ->)]; done.
Qed.

(** X20. No request makes a stock negative: starting from a catalogue
    without negative stock, after every request of any series of the
    requests of [Request], by whichever sessions (purchases, [PATCH] and
    [DELETE] of orders, products and accounts, new products,
    registrations), no product has a negative stock. *)
Theorem api_keeps_stock_nonnegative requests db :
  stock_nonnegative db →
  Forall stock_nonnegative (run_ requests db).
Proof.
  revert db. induction requests as [|[session request] rest IH];
    intros db Hinv; simpl.
  - constructor.
  - pose proof (handle_stock_nonnegative session request db Hinv).
    constructor; [done|]. by apply IH.
Qed.

(** A [PATCH] body for an order that passed the checks names a product
    that is there, if it names one. *)
Lemma SoldProductSerializer_partial_errors_product db data pid :
  SoldProductSerializer_partial_errors db data = [] →
  data_product_id data = Some pid →
  is_Some (Product_objects db !! pid).
Proof.
  unfold SoldProductSerializer_partial_errors. intros Herr Hpid.
  apply app_nil in Herr as [Herr _]. rewrite Hpid in Herr.
  by destruct (Product_objects db !! pid).
Qed.

Lemma handle_foreign_keys_valid session request db :
  foreign_keys_valid db → foreign_keys_valid (handle_ session request db).
Proof.
  intros [Hproducts Horders]. unfold foreign_keys_valid.
  destruct request as [data|pk data|pk|data|c pk data|c pk|pk data|pk|data];
    simpl.
  - destruct (SoldProductViewSet_create (request_user db session) data db)
      as [[[pk order]|e] db'] eqn:Hrun; simpl;
      [|by apply SoldProductViewSet_create_Raise in Hrun as ->].
    pose proof (SoldProductViewSet_create_Ok _ _ _ _ _ _ Hrun)
      as (_ & _ & _ & _ & _ & Hbuyer & _).
    apply request_user_id_row in Hbuyer.
    apply SoldProductViewSet_create_Ok_db in Hrun
      as (p & _ & _ & Hp & _ & _ & ->). simpl.
    split.
    + apply map_Forall_insert_2; [exact (Hproducts _ p Hp)|done].
    + apply map_Forall_insert_2.
      * split; [|done]. rewrite lookup_insert_eq. by eexists.
      * intros k o Ho. destruct (Horders k o Ho) as [Hpo Hbo].
        split; [|done]. apply lookup_insert_is_Some'. by right.
  - destruct (SoldProductViewSet_partial_update_db
                (request_user db session) pk data db)
      as [->|(o & Ho & Herr & ->)]; [done|]. simpl.
    split; [done|]. destruct (Horders pk o Ho) as [Hpo Hbo].
    apply map_Forall_insert_2; [|done]. simpl. split; [|done].
    destruct (data_product_id data) as [pid|] eqn:Hpid; simpl; [|done].
    by apply (SoldProductSerializer_partial_errors_product db data).
  - destruct (SoldProductViewSet_destroy_db (request_user db session) pk db)
      as [->| ->]; [done|]. simpl.
    split; [done|]. by apply map_Forall_delete.
  - destruct (ProductViewSet_create_db str (request_user db session) data db)
      as [->|(upk & p & Hupk & Hseller & _ & _ & ->)]; [done|]. simpl.
    apply request_user_id_row in Hupk. split.
    + apply map_Forall_insert_2; [by rewrite Hseller|done].
    + intros k o Ho. destruct (Horders k o Ho) as [Hpo Hbo].
      split; [|done]. apply lookup_insert_is_Some'. by right.
  - destruct (ProductViewSet_partial_update_db
                (request_user db session) c pk data db)
      as [->|(p & Hp & _ & ->)]; [done|]. simpl. split.
    + apply map_Forall_insert_2; [exact (Hproducts pk p Hp)|done].
    + intros k o Ho. destruct (Horders k o Ho) as [Hpo Hbo].
      split; [|done]. apply lookup_insert_is_Some'. by right.
  - destruct (ProductViewSet_destroy_db (request_user db session) c pk db)
      as [->| ->]; [done|]. simpl. split.
    + by apply map_Forall_delete.
    + intros k o Ho. apply map_lookup_filter_Some in Ho as [Ho Hne].
      simpl in Hne. destruct (Horders k o Ho) as [Hpo Hbo].
      split; [|done]. by rewrite lookup_delete_ne.
  - destruct (UserViewSet_partial_update_db UserSerializer_errors
                (request_user db session) pk data db)
      as [->|(u & Hu & ->)]; [done|]. simpl. split.
    + intros k p Hk. apply lookup_insert_is_Some'. right.
      by apply (Hproducts k p).
    + intros k o Ho. destruct (Horders k o Ho) as [Hpo Hbo].
      split; [done|]. apply lookup_insert_is_Some'. by right.
  - destruct (UserViewSet_destroy_db (request_user db session) pk db)
      as [->| ->]; [done|]. simpl. split.
    + intros k p Hk. apply map_lookup_filter_Some in Hk as [Hk Hne].
      simpl in Hne. rewrite lookup_delete_ne by done.
      by apply (Hproducts k p).
    + intros k o Ho. apply map_lookup_filter_Some in Ho as [Ho [Hb Hs]].
      simpl in Hb, Hs. destruct (Horders k o Ho) as [[p Hp] Hbo]. split.
      * exists p. apply map_lookup_filter_Some. split; [done|]. simpl.
        rewrite Hp in Hs. simpl in Hs. congruence.
      * by rewrite lookup_delete_ne.
  - destruct (UserViewSet_register_db AbstractUser_errors normalize_username
                normalize_email (request_user db session) data db)
      as [->|(u & ->)]; [done|]. simpl. split.
    + intros k p Hk. apply lookup_insert_is_Some'. right.
      by apply (Hproducts k p).
    + intros k o Ho. destruct (Horders k o Ho) as [Hpo Hbo].
      split; [done|]. apply lookup_insert_is_Some'. by right.
Qed.

(** X21. No request leaves a dangling reference: if every product names
    a seller that is an account, and every order a product and a buyer that
    are there, this still holds after every request of any series of the
    requests of [Request], by whichever sessions.  Deletions keep it by
    taking the referring rows along, and a [PATCH] can only move an order
    to a product that exists. *)
Theorem api_keeps_foreign_keys_valid requests db :
  foreign_keys_valid db →
  Forall foreign_keys_valid (run_ requests db).
Proof.
  revert db. induction requests as [|[session request] rest IH];
    intros db Hinv; simpl.
  - constructor.
  - pose proof (handle_foreign_keys_valid session request db Hinv).
    constructor; [done|]. by apply IH.
Qed.

(** Once an account is deleted, no request brings its key back. *)
Lemma handle_keeps_deleted_account session request db k :
  k ∈ User_retired db → User_objects db !! k = None →
  k ∈ User_retired (handle_ session request db)
  ∧ User_objects (handle_ session request db) !! k = None.
Proof.
  intros Hret Hgone.
  destruct request as [data|pk data|pk|data|c pk data|c pk|pk data|pk|data];
    simpl.
  - destruct (SoldProductViewSet_create (request_user db session) data db)
      as [[[pk order]|e] db'] eqn:Hrun; simpl;
      [|by apply SoldProductViewSet_create_Raise in Hrun as ->].
    by apply SoldProductViewSet_create_Ok_db in Hrun
      as (p & _ & _ & _ & _ & _ & ->).
  - destruct (SoldProductViewSet_partial_update_db
                (request_user db session) pk data db)
      as [->|(o & _ & _ & ->)]; done.
  - destruct (SoldProductViewSet_destroy_db (request_user db session) pk db)
      as [->| ->]; done.
  - destruct (ProductViewSet_create_db str (request_user db session) data db)
      as [->|(upk & p & _ & _ & _ & _ & ->)]; done.
  - destruct (ProductViewSet_partial_update_db
                (request_user db session) c pk data db)
      as [->|(p & _ & _ & ->)]; done.
  - destruct (ProductViewSet_destroy_db (request_user db session) c pk db)
      as [->| ->]; done.
  - destruct (UserViewSet_partial_update_db UserSerializer_errors
                (request_user db session) pk data db)
      as [->|(u & Hu & ->)]; [done|]. simpl. split; [done|].
    rewrite lookup_insert_ne; [done|]. intros ->. congruence.
  - destruct (UserViewSet_destroy_db (request_user db session) pk db)
      as [->| ->]; [done|]. simpl. split.
    + apply elem_of_union. by right.
    + destruct (decide (pk = k)) as [->|Hne];
        [apply lookup_delete_eq|by rewrite lookup_delete_ne].
  - destruct (UserViewSet_register_db AbstractUser_errors normalize_username
                normalize_email (request_user db session) data db)
      as [->|(u & ->)]; [done|]. simpl. split; [done|].
    rewrite lookup_insert_ne; [done|]. intros <-.
    by apply (unused_pk_not_retired (User_objects db) (User_retired db)).
Qed.

Lemma run_keeps_deleted_account requests db k :
  k ∈ User_retired db → User_objects db !! k = None →
  Forall (λ db', User_objects db' !! k = None) (run_ requests db).
Proof.
  revert db. induction requests as [|[session request] rest IH];
    intros db Hret Hgone; simpl.
  - constructor.
  - destruct (handle_keeps_deleted_account session request db k Hret Hgone)
      as [Hret' Hgone'].
    constructor; [done|]. by apply IH.
Qed.

(** X19. Deleting one's account takes its belongings with it, for good.
    The [DELETE] of the caller's own account succeeds; the account's row is
    gone, the products left are exactly those of other sellers, no order
    left was placed by the account or is for one of its products, and
    every other account is untouched.  From then on, whatever requests
    follow, by whichever sessions, registrations included, the key of the
    account names no row and a session of the account is anonymous. *)
Theorem account_deletion_cascades upk u db :
  User_objects db !! upk = Some u →
  ∃ db',
    UserViewSet_destroy (AuthenticatedUser upk u) upk db = (Ok tt, db')
    ∧ User_objects db' = delete upk (User_objects db)
    ∧ (∀ pk p, Product_objects db' !! pk = Some p ↔
               Product_objects db !! pk = Some p ∧ seller p ≠ upk)
    ∧ (∀ k o, SoldProduct_objects db' !! k = Some o →
              SoldProduct_objects db !! k = Some o
              ∧ buyer o ≠ upk
              ∧ ∀ p, Product_objects db !! product o = Some p →
                     seller p ≠ upk)
    ∧ request_user db' (Some upk) = AnonymousUser
    ∧ ∀ requests,
        Forall (λ db'', User_objects db'' !! upk = None
                        ∧ request_user db'' (Some upk) = AnonymousUser)
               (run_ requests db').
Proof.
  intros Hrow. eexists. split.
  - unfold UserViewSet_destroy, handler_bind, get_object. simpl.
    rewrite UserViewSet_get_queryset_lookup, decide_True by done.
    rewrite Hrow. simpl. reflexivity.
  - simpl. split; [done|]. split.
    + intros pk p. by rewrite map_lookup_filter_Some.
    + split; [|split].
      * intros k o. rewrite map_lookup_filter_Some. simpl.
        intros (Ho & Hb & Hs). split; [done|]. split; [done|].
        intros p Hp. rewrite Hp in Hs. simpl in Hs. congruence.
      * unfold request_user. simpl. by rewrite lookup_delete_eq.
      * intros requests.
        eapply Forall_impl;
          [apply run_keeps_deleted_account; simpl;
             [apply elem_of_union; left; by apply elem_of_singleton
             |apply lookup_delete_eq]|].
        simpl. intros db'' Hgone. split; [done|].
        unfold request_user. by rewrite Hgone.
Qed.

(** A request without an account behind it, other than a registration,
    leaves the database as it was. *)
Lemma handle_anonymous session request db :
  request_user db session = AnonymousUser →
  (∀ data, request ≠ POST_register data) →
  handle_ session request db = db.
Proof.
  intros Huser Hreg.
  destruct request as [data|pk data|pk|data|c pk data|c pk|pk data|pk|data];
    simpl; rewrite Huser; try done.
  by destruct (Hreg data).
Qed.

(** X6. Nothing is written without signing in, except a new account: along
    any series of requests none of which is a registration, sent without a
    session or with the session of an account that is gone or inactive,
    the database stays what it was.  Each such request is refused with
    [NotAuthenticated] before the view looks at its body. *)
Theorem anonymous_requests_write_nothing requests db :
  Forall (λ sr, request_user db sr.1 = AnonymousUser
                ∧ ∀ data, sr.2 ≠ POST_register data) requests →
  Forall (λ db', db' = db) (run_ requests db)
  ∧ (∀ data, SoldProductViewSet_create AnonymousUser data db
             = (Raise NotAuthenticated, db))
  ∧ (∀ pk data, SoldProductViewSet_partial_update AnonymousUser pk data db
                = (Raise NotAuthenticated, db))
  ∧ (∀ pk, SoldProductViewSet_destroy AnonymousUser pk db
           = (Raise NotAuthenticated, db))
  ∧ (∀ data, ProductViewSet_create str AnonymousUser data db
             = (Raise NotAuthenticated, db))
  ∧ (∀ c pk data, ProductViewSet_partial_update AnonymousUser c pk data db
                  = (Raise NotAuthenticated, db))
  ∧ (∀ c pk, ProductViewSet_destroy AnonymousUser c pk db
             = (Raise NotAuthenticated, db))
  ∧ (∀ pk data,
       UserViewSet_partial_update UserSerializer_errors AnonymousUser pk
         data db = (Raise NotAuthenticated, db))
  ∧ (∀ pk, UserViewSet_destroy AnonymousUser pk db
           = (Raise NotAuthenticated, db)).
Proof.
  intros Hall. split; [|by repeat split].
  induction Hall as [|[session request] rest [Huser Hreg] _ IH]; simpl.
  - constructor.
  - simpl in Huser, Hreg. rewrite handle_anonymous by done.
    by constructor.
Qed.
End API_invariants.
End Backend.

(** * Examples

    The properties above on the small shop, on a backend whose integer
    range ends at 2147483647. *)

Lemma purchase_beyond_stock_refused_witness :
  SoldProductViewSet_create Shop.max_integer Shop.as_bob (Shop.order_ferns 4 5000 None) Shop.db =
    (Raise (ValidationError
       [("quantity"%string,
         Message "Not enough stock available. Only 3 items left.")]),
     Shop.db).
Proof.
  refine (proj1 (purchase_beyond_stock_refused Shop.max_integer Shop.as_bob
            (Shop.order_ferns 4 5000 None) Shop.db
            {| vd_product_pk := 1; vd_product := Shop.fern;
               vd_quantity := Some 4; vd_total_price := 5000;
               vd_status := None; vd_shipping_address := "2 Pond Lane" |}
            1%nat Shop.fern 4 _ _ _ _ _ _)).
  - reflexivity.
  - vm_compute. reflexivity.
  - reflexivity.
  - vm_compute. reflexivity.
  - reflexivity.
  - vm_compute. reflexivity.
Defined.

Lemma purchase_within_stock_succeeds_witness :
  ∃ order db',
    SoldProductViewSet_create Shop.max_integer Shop.as_bob (Shop.order_ferns 3 3750 None) Shop.db
      = (Ok order, db')
    ∧ Product_objects db'
      = <[1%nat := set_stock Shop.fern (stock Shop.fern - 3)]>
          (Product_objects Shop.db)
    ∧ stock <$> Product_objects db' !! 1%nat = Some (stock Shop.fern - 3)
    ∧ (3 = stock Shop.fern → stock <$> Product_objects db' !! 1%nat = Some 0).
Proof.
  refine (purchase_within_stock_succeeds Shop.max_integer Shop.as_bob
            (Shop.order_ferns 3 3750 None) Shop.db
            {| vd_product_pk := 1; vd_product := Shop.fern;
               vd_quantity := Some 3; vd_total_price := 3750;
               vd_status := None; vd_shipping_address := "2 Pond Lane" |}
            1%nat Shop.fern 3 _ _ _ _ _ _).
  - reflexivity.
  - vm_compute. reflexivity.
  - reflexivity.
  - vm_compute. reflexivity.
  - reflexivity.
  - vm_compute. discriminate.
Defined.

Lemma Shop_stock_nonnegative : stock_nonnegative Shop.db.
Proof.
  intros pk p. unfold Shop.db. simpl. intros Hp.
  apply lookup_insert_Some in Hp as [[_ <-]|[_ Hp]]; [by vm_compute|].
  apply lookup_singleton_Some in Hp as [_ <-]. by vm_compute.
Defined.

Lemma stock_never_negative_witness :
  Forall stock_nonnegative
    (purchases Shop.max_integer [(Shop.as_bob, Shop.order_ferns 2 2500 None);
                (Shop.as_bob, Shop.order_ferns 2 2500 None);
                (AnonymousUser, Shop.order_ferns 1 1250 None);
                (Shop.as_carol, Shop.order_ferns 1 1 None)] Shop.db).
Proof.
  apply (stock_never_negative Shop.max_integer). exact Shop_stock_nonnegative.
Defined.

Lemma total_price_taken_from_request_witness :
  data_total_price (Shop.order_ferns 3 3750 None) = Some 3750
  ∧ SoldProduct_objects
      (SoldProductViewSet_create Shop.max_integer Shop.as_bob (Shop.order_ferns 3 3750 None)
         Shop.db).2 !! 1%nat
    = Some {| product := 1; buyer := 2; quantity := 3; total_price := 3750;
              status := "Pending"; shipping_address := "2 Pond Lane" |}.
Proof.
  pose proof (total_price_taken_from_request Shop.max_integer Shop.as_bob
                (Shop.order_ferns 3 3750 None) Shop.db 1%nat
                {| product := 1; buyer := 2; quantity := 3;
                   total_price := 3750; status := "Pending";
                   shipping_address := "2 Pond Lane" |}
                (SoldProductViewSet_create Shop.max_integer Shop.as_bob
                   (Shop.order_ferns 3 3750 None) Shop.db).2) as H.
  destruct H as (Ht & Hs & _).
  - vm_compute. reflexivity.
  - split; [exact Ht|exact Hs].
Defined.

(** C2 fails as stated: Bob orders three ferns priced 12.50 and states a
    total of 0.01; the order is accepted and stored with total 0.01, not
    37.50. *)
Lemma total_price_not_price_times_quantity :
  SoldProductViewSet_create Shop.max_integer Shop.as_bob (Shop.order_ferns 3 1 None) Shop.db
  = (Ok (1%nat,
         {| product := 1; buyer := 2; quantity := 3; total_price := 1;
            status := "Pending"; shipping_address := "2 Pond Lane" |}),
     {| User_objects := User_objects Shop.db;
        Product_objects :=
          {[ 1%nat := set_stock Shop.fern 0; 2%nat := Shop.cactus ]};
        SoldProduct_objects :=
          {[ 0%nat := Shop.order0;
             1%nat := {| product := 1; buyer := 2; quantity := 3;
                         total_price := 1; status := "Pending";
                         shipping_address := "2 Pond Lane" |} ]};
        User_retired := User_retired Shop.db;
        Product_retired := Product_retired Shop.db;
        SoldProduct_retired := SoldProduct_retired Shop.db |})
  ∧ price Shop.fern * 3 = 3750
  ∧ 1 ≠ price Shop.fern * 3.
Proof. split; [|split]; by vm_compute. Qed.

Lemma order_buyer_is_caller_status_from_request_witness :
  request_user_id Shop.as_bob = Some 2%nat
  ∧ status {| product := 1; buyer := 2; quantity := 1; total_price := 1250;
              status := "Shipped"; shipping_address := "2 Pond Lane" |}
    = default "Pending"%string
        (data_status (Shop.order_ferns 1 1250 (Some "Shipped"%string))).
Proof.
  pose proof (order_buyer_is_caller_status_from_request Shop.max_integer Shop.as_bob
                (Shop.order_ferns 1 1250 (Some "Shipped"%string)) Shop.db
                1%nat
                {| product := 1; buyer := 2; quantity := 1;
                   total_price := 1250; status := "Shipped";
                   shipping_address := "2 Pond Lane" |}
                (SoldProductViewSet_create Shop.max_integer Shop.as_bob
                   (Shop.order_ferns 1 1250 (Some "Shipped"%string))
                   Shop.db).2) as H.
  destruct H as (Hb & Hs & _).
  - vm_compute. reflexivity.
  - split; [exact Hb|exact Hs].
Defined.

(** C7 fails as stated: Bob orders one fern and sends status "Delivered";
    the order is created with status "Delivered", not "Pending". *)
Lemma created_order_not_pending :
  (SoldProductViewSet_create Shop.max_integer Shop.as_bob
     (Shop.order_ferns 1 1250 (Some "Delivered"%string)) Shop.db).1
  = Ok (1%nat,
        {| product := 1; buyer := 2; quantity := 1; total_price := 1250;
           status := "Delivered"; shipping_address := "2 Pond Lane" |})
  ∧ SoldProduct_objects
      (SoldProductViewSet_create Shop.max_integer Shop.as_bob
         (Shop.order_ferns 1 1250 (Some "Delivered"%string)) Shop.db).2
      !! 1%nat
    = Some {| product := 1; buyer := 2; quantity := 1; total_price := 1250;
              status := "Delivered"; shipping_address := "2 Pond Lane" |}
  ∧ "Delivered"%string ≠ "Pending"%string.
Proof. split; [|split]; by vm_compute. Qed.

Lemma negative_quantity_rejected_upstream_witness :
  ∃ e, SoldProductViewSet_create Shop.max_integer Shop.as_bob (Shop.order_ferns (-1) 0 None)
         Shop.db = (Raise e, Shop.db).
Proof.
  refine (proj2 (proj1 (negative_quantity_rejected_upstream Shop.max_integer Shop.as_bob
            (Shop.order_ferns (-1) 0 None) Shop.db) (-1) _ _)).
  - reflexivity.
  - vm_compute. reflexivity.
Defined.

(** C8 fails as stated: Bob orders zero ferns; the request passes the
    serializer and the purchase stores an order of quantity 0, leaving the
    stock at 3. *)
Lemma zero_quantity_order_stored :
  SoldProductViewSet_create Shop.max_integer Shop.as_bob (Shop.order_ferns 0 0 None) Shop.db
  = (Ok (1%nat,
         {| product := 1; buyer := 2; quantity := 0; total_price := 0;
            status := "Pending"; shipping_address := "2 Pond Lane" |}),
     {| User_objects := User_objects Shop.db;
        Product_objects := {[ 1%nat := Shop.fern; 2%nat := Shop.cactus ]};
        SoldProduct_objects :=
          {[ 0%nat := Shop.order0;
             1%nat := {| product := 1; buyer := 2; quantity := 0;
                         total_price := 0; status := "Pending";
                         shipping_address := "2 Pond Lane" |} ]};
        User_retired := User_retired Shop.db;
        Product_retired := Product_retired Shop.db;
        SoldProduct_retired := SoldProduct_retired Shop.db |})
  ∧ ¬ 1 ≤ 0.
Proof. split; by vm_compute. Qed.

Lemma catalog_list_scope_witness :
  (ProductViewSet_get_queryset Shop.as_alice None Shop.db !! 2%nat
     = Some Shop.cactus)
  ∧ (ProductViewSet_get_queryset Shop.as_bob None Shop.db !! 1%nat
     = Some Shop.fern).
Proof.
  split.
  - apply (proj1 (proj2 (catalog_list_scope Shop.as_alice None Shop.db))).
    + reflexivity.
    + split; [vm_compute; reflexivity|]. simpl. discriminate.
  - apply (proj1 (proj2 (proj2 (catalog_list_scope Shop.as_bob None Shop.db)))).
    + reflexivity.
    + split; [vm_compute; reflexivity|]. split; [vm_compute; reflexivity|].
      simpl. discriminate.
Defined.

(** C5 fails as stated: Carol is a seller and owns no product; her listing
    contains Alice's cactus, whose stock is 0. *)
Lemma other_seller_sees_zero_stock :
  ProductViewSet_list Shop.as_carol None Shop.db
  = (Ok {[ 1%nat := Shop.fern; 2%nat := Shop.cactus ]}, Shop.db)
  ∧ stock Shop.cactus = 0
  ∧ seller Shop.cactus = 1%nat
  ∧ request_user_id Shop.as_carol = Some 3%nat.
Proof. repeat split; by vm_compute. Qed.

Lemma product_write_requires_seller_only_witness :
  (∃ e, (e = NotAuthenticated ∨ e = PermissionDenied)
        ∧ ProductViewSet_partial_update Shop.max_integer Shop.as_bob None 1
            (Shop.new_price 1) Shop.db = (Raise e, Shop.db)
        ∧ ProductViewSet_destroy Shop.as_bob None 1 Shop.db
          = (Raise e, Shop.db))
  ∧ ProductViewSet_destroy Shop.as_alice None 1 Shop.db
    = (Ok tt,
       {| User_objects := User_objects Shop.db;
          Product_objects := delete 1%nat (Product_objects Shop.db);
          SoldProduct_objects :=
            filter (λ kv, product kv.2 ≠ 1%nat)
                   (SoldProduct_objects Shop.db);
          User_retired := User_retired Shop.db;
          Product_retired := {[1%nat]} ∪ Product_retired Shop.db;
          SoldProduct_retired :=
            dom (filter (λ kv, product kv.2 = 1%nat)
                        (SoldProduct_objects Shop.db))
            ∪ SoldProduct_retired Shop.db |}).
Proof.
  split.
  - apply (proj1 (product_write_requires_seller_only Shop.max_integer Shop.as_bob None 1
                    (Shop.new_price 1) Shop.db)).
    reflexivity.
  - refine (proj1 (proj2 (proj2 (proj2
              (product_write_requires_seller_only Shop.max_integer Shop.as_alice None 1
                 Shop.no_change Shop.db))) _ _ Shop.fern _)).
    + reflexivity.
    + reflexivity.
    + vm_compute. reflexivity.
Defined.

(** C6 fails as stated: Carol, a seller who does not own it, changes the
    price of Alice's fern to 0.01 and then deletes it; both succeed. *)
Lemma non_owner_seller_edits_and_deletes :
  seller Shop.fern = 1%nat
  ∧ request_user_id Shop.as_carol = Some 3%nat
  ∧ ProductViewSet_partial_update Shop.max_integer Shop.as_carol None 1 (Shop.new_price 1)
      Shop.db
    = (Ok (ProductSerializer_update Shop.fern (Shop.new_price 1)),
       {| User_objects := User_objects Shop.db;
          Product_objects :=
            {[ 1%nat := ProductSerializer_update Shop.fern (Shop.new_price 1);
               2%nat := Shop.cactus ]};
          SoldProduct_objects := SoldProduct_objects Shop.db;
          User_retired := ∅;
          Product_retired := ∅;
          SoldProduct_retired := ∅ |})
  ∧ price (ProductSerializer_update Shop.fern (Shop.new_price 1)) = 1
  ∧ ProductViewSet_destroy Shop.as_carol None 1 Shop.db
    = (Ok tt,
       {| User_objects := User_objects Shop.db;
          Product_objects := {[ 2%nat := Shop.cactus ]};
          SoldProduct_objects := SoldProduct_objects Shop.db;
          User_retired := ∅;
          Product_retired := {[ 1%nat ]};
          SoldProduct_retired := ∅ |}).
Proof. repeat split; by vm_compute. Qed.

Lemma orders_removed_by_deletions_only_witness :
  SoldProduct_objects (ProductViewSet_destroy Shop.as_alice None 1 Shop.db).2
    !! 0%nat = Some Shop.order0.
Proof.
  refine (proj2 (proj1 (proj2 (proj2
            (orders_removed_by_deletions_only Shop.max_integer Shop.as_alice Shop.db)))
            None 1%nat _ _ 0%nat Shop.order0) _).
  - vm_compute. reflexivity.
  - split; [vm_compute; reflexivity|]. simpl. discriminate.
Defined.

(** C9 fails as stated: Alice deletes her cactus, and Bob's order of that
    cactus, which was in the order table, is gone with it. *)
Lemma product_deletion_removes_orders :
  SoldProduct_objects Shop.db !! 0%nat = Some Shop.order0
  ∧ product Shop.order0 = 2%nat
  ∧ ProductViewSet_destroy Shop.as_alice None 2 Shop.db
    = (Ok tt,
       {| User_objects := User_objects Shop.db;
          Product_objects := {[ 1%nat := Shop.fern ]};
          SoldProduct_objects := ∅;
          User_retired := ∅;
          Product_retired := {[ 2%nat ]};
          SoldProduct_retired := {[ 0%nat ]} |})
  ∧ SoldProduct_objects
      (ProductViewSet_destroy Shop.as_alice None 2 Shop.db).2 !! 0%nat
    = None.
Proof. repeat split; by vm_compute. Qed.

Lemma users_resource_scoped_to_caller_witness :
  UserViewSet_get_queryset Shop.as_bob Shop.db = {[ 2%nat := Shop.bob ]}
  ∧ UserViewSet_retrieve Shop.as_bob 1 Shop.db = (Raise Http404, Shop.db)
  ∧ UserViewSet_destroy Shop.as_bob 1 Shop.db = (Raise Http404, Shop.db).
Proof.
  pose proof (users_resource_scoped_to_caller (λ _ _ _, []) 2%nat Shop.bob
                Shop.db) as H.
  destruct H as (Hq & _ & Hother).
  - vm_compute. reflexivity.
  - destruct (Hother 1%nat) as (Hr & _ & Hd).
    + discriminate.
    + split; [exact Hq|]. split; [exact Hr|exact Hd].
Defined.

Lemma purchase_writes_one_row_adds_one_order_witness :
  User_objects
    (SoldProductViewSet_create Shop.max_integer Shop.as_bob (Shop.order_ferns 2 2500 None)
       Shop.db).2 = User_objects Shop.db
  ∧ size (SoldProduct_objects
            (SoldProductViewSet_create Shop.max_integer Shop.as_bob
               (Shop.order_ferns 2 2500 None) Shop.db).2)
    = S (size (SoldProduct_objects Shop.db)).
Proof.
  pose proof (purchase_writes_one_row_adds_one_order Shop.max_integer Shop.as_bob
                (Shop.order_ferns 2 2500 None) Shop.db 1%nat
                {| product := 1; buyer := 2; quantity := 2;
                   total_price := 2500; status := "Pending";
                   shipping_address := "2 Pond Lane" |}
                (SoldProductViewSet_create Shop.max_integer Shop.as_bob
                   (Shop.order_ferns 2 2500 None) Shop.db).2) as H.
  destruct H as (Hu & _ & _ & _ & _ & _ & Hs).
  - vm_compute. reflexivity.
  - split; [exact Hu|exact Hs].
Defined.

Lemma purchases_conserve_inventory_witness :
  Forall (λ db', ∃ s', stock_of 1 db' = Some s'
                       ∧ s' + units_sold 1 db' = 3 + units_sold 1 Shop.db)
         (purchases Shop.max_integer [(Shop.as_bob, Shop.order_ferns 2 2500 None);
                     (Shop.as_carol, Shop.order_ferns 2 2500 None);
                     (Shop.as_carol, Shop.order_ferns 1 1250 None)] Shop.db).
Proof.
  apply (purchases_conserve_inventory Shop.max_integer). vm_compute. reflexivity.
Defined.

Lemma purchases_never_oversell_witness :
  Forall (λ db', units_sold 1 db' - units_sold 1 Shop.db ≤ 3)
         (purchases Shop.max_integer [(Shop.as_bob, Shop.order_ferns 2 2500 None);
                     (Shop.as_carol, Shop.order_ferns 2 2500 None);
                     (Shop.as_carol, Shop.order_ferns 1 1250 None)] Shop.db).
Proof.
  apply (purchases_never_oversell Shop.max_integer).
  - exact Shop_stock_nonnegative.
  - vm_compute. reflexivity.
Defined.

Lemma purchase_after_purchase_witness :
  SoldProductViewSet_create Shop.max_integer Shop.as_carol (Shop.order_ferns 2 2500 None)
    (SoldProductViewSet_create Shop.max_integer Shop.as_bob (Shop.order_ferns 2 2500 None)
       Shop.db).2
  = (Raise (ValidationError
       [("quantity"%string,
         Message ("Not enough stock available. Only "
                  +:+ pretty (stock Shop.fern - 2) +:+ " items left.")%string)]),
     (SoldProductViewSet_create Shop.max_integer Shop.as_bob (Shop.order_ferns 2 2500 None)
        Shop.db).2).
Proof.
  refine (proj1 (purchase_after_purchase Shop.max_integer Shop.as_bob
            (Shop.order_ferns 2 2500 None) Shop.db 1%nat
            {| product := 1; buyer := 2; quantity := 2;
               total_price := 2500; status := "Pending";
               shipping_address := "2 Pond Lane" |}
            (SoldProductViewSet_create Shop.max_integer Shop.as_bob
               (Shop.order_ferns 2 2500 None) Shop.db).2
            Shop.fern Shop.as_carol (Shop.order_ferns 2 2500 None)
            {| vd_product_pk := 1; vd_product := set_stock Shop.fern 1;
               vd_quantity := Some 2; vd_total_price := 2500;
               vd_status := None; vd_shipping_address := "2 Pond Lane" |}
            2 _ _ _ _ _ _) _).
  - vm_compute. reflexivity.
  - vm_compute. reflexivity.
  - reflexivity.
  - vm_compute. reflexivity.
  - reflexivity.
  - reflexivity.
  - vm_compute. reflexivity.
Defined.

Lemma purchase_without_quantity_is_KeyError_witness :
  SoldProductViewSet_create Shop.max_integer Shop.as_bob Shop.order_no_quantity Shop.db
  = (Raise (KeyError "quantity"), Shop.db).
Proof.
  apply (purchase_without_quantity_is_KeyError Shop.max_integer Shop.as_bob
           Shop.order_no_quantity Shop.db
           {| vd_product_pk := 1; vd_product := Shop.fern;
              vd_quantity := None; vd_total_price := 1250;
              vd_status := None; vd_shipping_address := "2 Pond Lane" |}).
  - reflexivity.
  - vm_compute. reflexivity.
  - reflexivity.
Defined.

Lemma product_create_binds_caller_witness :
  request_user_id Shop.as_alice = Some 1%nat
  ∧ strip <$> data_name Shop.new_pot = Some "Pot"%string
  ∧ Product_objects Shop.db !! 3%nat = None.
Proof.
  pose proof (proj2 (product_create_binds_caller Shop.max_integer Shop.show
                       Shop.as_alice Shop.new_pot Shop.db)
                3%nat
                {| name := "Pot"; description := "A clay pot"; price := 500;
                   category := "Pots & Planters";
                   image := "products/pot.png"; stock := 0; seller := 1 |}
                (ProductViewSet_create Shop.max_integer Shop.show
                   Shop.as_alice Shop.new_pot Shop.db).2) as H.
  destruct H as (Hseller & _ & Hname & _ & _ & _ & _ & _ & _ & _ & Hfree & _).
  - vm_compute. reflexivity.
  - split; [exact Hseller|]. split; [exact Hname|exact Hfree].
Defined.

Lemma product_create_answers_400_witness :
  ProductViewSet_create Shop.max_integer Shop.show Shop.as_alice Shop.unnamed_pot Shop.db
  = (Ok {| status_code := HTTP_400_BAD_REQUEST;
           payload :=
             Error (Shop.show (ValidationError
                                 [("name"%string, Code "required")])) |},
     Shop.db).
Proof.
  refine (proj2 (product_create_answers_400 Shop.max_integer Shop.show Shop.as_alice
                   Shop.unnamed_pot Shop.db _) _ _).
  - reflexivity.
  - vm_compute. reflexivity.
Defined.

Lemma sold_out_product_hidden_from_buyers_witness :
  ProductViewSet_retrieve Shop.as_bob None 1
    (SoldProductViewSet_create Shop.max_integer Shop.as_bob (Shop.order_ferns 3 3750 None)
       Shop.db).2
  = (Raise Http404,
     (SoldProductViewSet_create Shop.max_integer Shop.as_bob (Shop.order_ferns 3 3750 None)
        Shop.db).2).
Proof.
  refine (proj2 (proj1 (sold_out_product_hidden_from_buyers Shop.max_integer Shop.as_bob
            (Shop.order_ferns 3 3750 None) Shop.db 1%nat
            {| product := 1; buyer := 2; quantity := 3;
               total_price := 3750; status := "Pending";
               shipping_address := "2 Pond Lane" |}
            (SoldProductViewSet_create Shop.max_integer Shop.as_bob
               (Shop.order_ferns 3 3750 None) Shop.db).2
            Shop.fern Shop.as_bob None _ _ _) _)).
  - vm_compute. reflexivity.
  - vm_compute. reflexivity.
  - reflexivity.
  - reflexivity.
Defined.

Lemma product_write_outside_queryset_is_404_witness :
  ProductViewSet_partial_update Shop.max_integer Shop.as_alice (Some "Seeds"%string) 1
    (Shop.new_price 999) Shop.db = (Raise Http404, Shop.db)
  ∧ ProductViewSet_destroy Shop.as_alice (Some "Seeds"%string) 1 Shop.db
    = (Raise Http404, Shop.db).
Proof.
  apply (product_write_outside_queryset_is_404 Shop.max_integer).
  - reflexivity.
  - right. exists Shop.fern. split; [vm_compute; reflexivity|].
    split; [reflexivity|]. simpl. discriminate.
Defined.

Lemma product_update_keeps_seller_witness :
  ∃ e, ProductViewSet_partial_update Shop.max_integer Shop.as_alice None 1
         Shop.negative_stock Shop.db = (Raise e, Shop.db).
Proof.
  apply (proj2 (proj2 (product_update_keeps_seller Shop.max_integer Shop.as_alice None 1
                         Shop.negative_stock Shop.db))).
  vm_compute. discriminate.
Defined.

Lemma order_queryset_scope_witness :
  SoldProductViewSet_get_queryset destroy Shop.as_bob Shop.db !! 0%nat
  = Some Shop.order0.
Proof.
  apply (proj2 (proj2 (order_queryset_scope destroy Shop.as_bob Shop.db))).
  - reflexivity.
  - split; [vm_compute; reflexivity|]. reflexivity.
Defined.

Lemma order_delete_does_not_restock_witness :
  SoldProductViewSet_destroy Shop.as_bob 0 Shop.db
  = (Ok tt,
     {| User_objects := User_objects Shop.db;
        Product_objects := Product_objects Shop.db;
        SoldProduct_objects := delete 0%nat (SoldProduct_objects Shop.db);
        User_retired := User_retired Shop.db;
        Product_retired := Product_retired Shop.db;
        SoldProduct_retired := {[0%nat]} ∪ SoldProduct_retired Shop.db |}).
Proof.
  apply (proj1 (proj2 (proj2 (order_delete_does_not_restock Shop.as_bob
                                0%nat Shop.db))) Shop.order0).
  vm_compute. reflexivity.
Defined.

Lemma order_patch_rewrites_order_only_witness :
  SoldProductViewSet_partial_update Shop.max_integer Shop.as_bob 0 (Shop.new_total 1) Shop.db
  = (Ok (SoldProductSerializer_update Shop.order0 (Shop.new_total 1)),
     with_sold_products Shop.db
       (<[0%nat := SoldProductSerializer_update Shop.order0 (Shop.new_total 1)]>
          (SoldProduct_objects Shop.db))).
Proof.
  apply (proj1 (proj2 (proj2 (order_patch_rewrites_order_only Shop.max_integer Shop.as_bob
                                0%nat (Shop.new_total 1) Shop.db)))
           Shop.order0).
  - vm_compute. reflexivity.
  - vm_compute. reflexivity.
Defined.

Lemma account_can_make_itself_seller_witness :
  user_is_seller
    (request_user
       (with_users Shop.db
          (<[2%nat := UserSerializer_update Shop.bob Shop.become_seller]>
             (User_objects Shop.db))) (Some 2%nat)) = true.
Proof.
  refine (proj1 (proj2 (account_can_make_itself_seller Shop.no_user_errors
                          2%nat Shop.bob Shop.become_seller Shop.db _ _ _)
                   _ _)).
  - vm_compute. reflexivity.
  - reflexivity.
  - reflexivity.
  - reflexivity.
  - reflexivity.
Defined.


Lemma login_outcome_witness :
  UserViewSet_login Desk.check_password AnonymousUser
    (Desk.credentials (Some "bob"%string) (Some EmptyString)) Shop.db
  = (Ok ({| status_code := HTTP_400_BAD_REQUEST;
            payload :=
              Error "Please provide both username and password" |},
         AnonymousUser), Shop.db).
Proof.
  apply (proj2 (proj2 (proj2 (proj2
           (login_outcome Desk.check_password AnonymousUser
              (Desk.credentials (Some "bob"%string) (Some EmptyString))
              Shop.db))))).
  right. reflexivity.
Defined.

Lemma session_actions_need_a_session_witness :
  UserViewSet_logout AnonymousUser Shop.db = (Raise NotAuthenticated, Shop.db).
Proof.
  refine (proj2 (proj2 (session_actions_need_a_session Shop.as_bob Shop.db))
            {| status_code := HTTP_204_NO_CONTENT; payload := Empty |}
            AnonymousUser Shop.db _).
  reflexivity.
Defined.

Lemma account_deletion_cascades_witness :
  ∃ db',
    UserViewSet_destroy Shop.as_alice 1 Shop.db = (Ok tt, db')
    ∧ User_objects db' = delete 1%nat (User_objects Shop.db)
    ∧ (∀ pk p, Product_objects db' !! pk = Some p ↔
               Product_objects Shop.db !! pk = Some p ∧ seller p ≠ 1%nat)
    ∧ (∀ k o, SoldProduct_objects db' !! k = Some o →
              SoldProduct_objects Shop.db !! k = Some o
              ∧ buyer o ≠ 1%nat
              ∧ ∀ p, Product_objects Shop.db !! product o = Some p →
                     seller p ≠ 1%nat)
    ∧ request_user db' (Some 1%nat) = AnonymousUser
    ∧ ∀ requests,
        Forall (λ db'', User_objects db'' !! 1%nat = None
                        ∧ request_user db'' (Some 1%nat) = AnonymousUser)
               (run Shop.max_integer Shop.show Shop.no_user_errors
                  Desk.no_signup_errors Desk.same Desk.same requests db').
Proof.
  apply (account_deletion_cascades Shop.max_integer Shop.show
           Shop.no_user_errors Desk.no_signup_errors Desk.same Desk.same
           1%nat Shop.alice Shop.db).
  vm_compute. reflexivity.
Defined.

Lemma anonymous_requests_write_nothing_witness :
  Forall (λ db', db' = Shop.db)
    (run Shop.max_integer Shop.show Shop.no_user_errors Desk.no_signup_errors
       Desk.same Desk.same
       [(None, POST_sold_products (Shop.order_ferns 1 1250 None));
        (None, DELETE_products None 1);
        (Some 7%nat, PATCH_products None 1 (Shop.new_price 1));
        (None, DELETE_sold_products 0)] Shop.db).
Proof.
  apply (anonymous_requests_write_nothing Shop.max_integer Shop.show
           Shop.no_user_errors Desk.no_signup_errors Desk.same Desk.same).
  repeat constructor; done.
Defined.

Lemma api_keeps_stock_nonnegative_witness :
  Forall stock_nonnegative
    (run Shop.max_integer Shop.show Shop.no_user_errors Desk.no_signup_errors Desk.same
       Desk.same
       [(Some 2%nat, POST_sold_products (Shop.order_ferns 2 2500 None));
        (Some 1%nat, PATCH_products None 1 Shop.negative_stock);
        (Some 1%nat, POST_products Shop.new_pot);
        (Some 3%nat, DELETE_products None 2);
        (None, POST_register (Desk.signup (Some "secret"%string)));
        (Some 1%nat, DELETE_users 1)] Shop.db).
Proof.
  apply (api_keeps_stock_nonnegative Shop.max_integer). exact Shop_stock_nonnegative.
Defined.

Lemma Shop_foreign_keys_valid : foreign_keys_valid Shop.db.
Proof.
  split.
  - intros k p Hk. unfold Shop.db in Hk. simpl in Hk.
    apply lookup_insert_Some in Hk as [[_ <-]|[_ Hk]];
      [by vm_compute; eexists|].
    apply lookup_singleton_Some in Hk as [_ <-]. by vm_compute; eexists.
  - intros k o Hk. unfold Shop.db in Hk. simpl in Hk.
    apply lookup_singleton_Some in Hk as [_ <-].
    split; by vm_compute; eexists.
Defined.

Lemma api_keeps_foreign_keys_valid_witness :
  Forall foreign_keys_valid
    (run Shop.max_integer Shop.show Shop.no_user_errors Desk.no_signup_errors Desk.same
       Desk.same
       [(Some 2%nat, POST_sold_products (Shop.order_ferns 2 2500 None));
        (Some 3%nat, DELETE_products None 2);
        (None, POST_register (Desk.signup (Some "secret"%string)));
        (Some 1%nat, POST_products Shop.new_pot);
        (Some 1%nat, DELETE_users 1);
        (Some 1%nat, POST_products Shop.new_pot)] Shop.db).
Proof.
  apply (api_keeps_foreign_keys_valid Shop.max_integer). exact Shop_foreign_keys_valid.
Defined.

